(** * X12 EDI decoding: the 835 remittance projection and the transaction header

  A shallow embedding of [databricksx12/transaction.py] and
  [databricksx12/hls/remittance.py].  Python values that end up in the
  decoded record are embedded as [pyval]; dictionaries keep their insertion
  order, as Python's do, and are association lists with distinct keys.
  Positions inside a segment loop are Python integers ([Z]): the source
  computes [len(loop) - 1] and filters on [x >= 0], so signs matter. *)

From Stdlib Require Import List String Ascii ZArith Lia Bool.
Import ListNotations.

Local Open Scope string_scope.
Local Open Scope list_scope.

Set Implicit Arguments.

(* ------------------------------------------------------------------ *)
(** ** Python values, dictionaries, slices                             *)
(* ------------------------------------------------------------------ *)

Module Py.

(** The leaves and containers a decoded record is made of. *)
#[warnings="-register-all"]
Inductive pyval : Type :=
| PNone
| PStr (s : string)
| PList (l : list pyval)
| PDict (d : list (string * pyval)).

Definition dict := list (string * pyval).

Definition dict_keys (d : dict) : list string := map fst d.

Fixpoint dict_get (k : string) (d : dict) : option pyval :=
  match d with
  | [] => None
  | (k', v) :: rest => if k' =? k then Some v else dict_get k rest
  end.

(** [d[k] = v]: an existing key keeps its place, a new one goes last. *)
Fixpoint dict_set (k : string) (v : pyval) (d : dict) : dict :=
  match d with
  | [] => [(k, v)]
  | (k', v') :: rest =>
      if k' =? k then (k', v) :: rest else (k', v') :: dict_set k v rest
  end.

(** [{**d1, **d2}]. *)
Definition dict_update (d1 d2 : dict) : dict :=
  fold_left (fun acc kv => dict_set (fst kv) (snd kv) acc) d2 d1.

(** [{**a, **b, ...}] for a sequence of unpacked mappings. *)
Definition dict_unpack (ds : list dict) : dict :=
  fold_left dict_update ds [].

Fixpoint enumerate_from {A} (n : Z) (l : list A) : list (Z * A) :=
  match l with
  | [] => []
  | x :: rest => (n, x) :: enumerate_from (n + 1) rest
  end.

Definition enumerate {A} (l : list A) : list (Z * A) := enumerate_from 0 l.

Definition len {A} (l : list A) : Z := Z.of_nat (List.length l).

(** A slice bound brought into [0, n]: a negative bound counts from the
    end, and whatever is still outside is clamped. *)
Definition clamp (n : Z) (x : Z) : Z :=
  if (x <? 0)%Z then Z.max 0 (x + n) else Z.min x n.

(** [l[start:stop]] with either bound possibly omitted. *)
Definition py_slice {A} (l : list A) (start stop : option Z) : list A :=
  let n := len l in
  let a := match start with Some x => clamp n x | None => 0%Z end in
  let b := match stop with Some x => clamp n x | None => n end in
  firstn (Z.to_nat (b - a)) (skipn (Z.to_nat a) l).

(** [min(l)]: [None] stands for the ValueError on an empty sequence. *)
Definition py_min (l : list Z) : option Z :=
  match l with
  | [] => None
  | x :: rest => Some (fold_left Z.min rest x)
  end.

(** [l[i]] for [i >= 0]: [None] stands for the IndexError. *)
Definition py_getitem {A} (l : list A) (i : nat) : option A := nth_error l i.

(** [functools.reduce(f, l, init)]. *)
Definition reduce {A B} (f : B -> A -> B) (l : list A) (init : B) : B :=
  fold_left f l init.

(** [functools.reduce(f, [x, y, ...])], no initial value, on a sequence
    written out with its first item [x]. *)
Definition reduce1 {A} (f : A -> A -> A) (x : A) (rest : list A) : A :=
  fold_left f rest x.

Definition bind {A B} (m : option A) (k : A -> option B) : option B :=
  match m with
  | Some a => k a
  | None => None
  end.

End Py.

Import Py.

Notation "x <- m ;; k" := (bind m (fun x => k))
(at level 61, m at next level, right associativity).

(* ------------------------------------------------------------------ *)
(** ** Segments and the segment stream navigator                       *)
(* ------------------------------------------------------------------ *)

Module Edi.

(** Modelled from the spec: the delimiter classes of [databricksx12.format]
    ([AnsiX12Delim]), which are not among the sources.  Section 3 gives a
    delimiter configuration three separators. *)
Record Delim : Type := mkDelim {
  element_sep : ascii;
  composite_sep : ascii;
  segment_term : ascii
}.

Definition AnsiX12Delim : Delim := mkDelim "*" ":" "~".

(** Modelled from the spec: the [Segment] class of [databricksx12.edi],
    which is not among the sources.  Section 3: an identifier plus the
    ordered list of elements; the identifier sits at position 0 of the
    tokenized segment and is not one of the addressable elements, which are
    numbered from 1.  A composite element is kept as tokenized and split on
    the composite separator on access. *)
Record Segment : Type := mkSegment {
  identifier : string;
  elements : list string;
  format_cls : Delim
}.

(** Modelled from the spec: the sentinel that [first] returns when nothing
    matches; every [element] read of it is the empty string. *)
Definition empty : Segment := mkSegment "" [] AnsiX12Delim.

Definition segment_name (s : Segment) : string := identifier s.

(** Modelled from the spec: the length the source asks for with
    [segment_len()].  Section 4.6 reads [segment_len() > threshold] as
    "long enough to contain that group's starting position": position
    [threshold] exists exactly when the length exceeds it, so the length
    counts the positions of the tokenized segment from 0, the identifier's
    position and one per element. *)
Definition segment_len (s : Segment) : Z := (1 + len (elements s))%Z.

(** [str.split(sep)]: always at least one piece. *)
Fixpoint split_on (sep : ascii) (s : string) : list string :=
  match s with
  | EmptyString => [EmptyString]
  | String c rest =>
      if Ascii.eqb c sep then EmptyString :: split_on sep rest
      else match split_on sep rest with
           | [] => [String c EmptyString]
           | piece :: pieces => String c piece :: pieces
           end
  end.

(** The raw positional lookups; [None] is "index past the end". *)
Definition element_at (s : Segment) (i : nat) : option string :=
  match i with
  | O => None
  | S k => nth_error (elements s) k
  end.

Definition sub_element_at (s : Segment) (i j : nat) : option string :=
  e <- element_at s i ;;
  nth_error (split_on (composite_sep (format_cls s)) e) j.

(** Modelled from the spec: [element(i) -> string, default "" if i exceeds
    the element count] and [element(i, j)], the j-th sub-element of the
    composite at position i, default "" if i or j is out of range
    (section 4.1).  The source reads sub-elements from 0
    ([p.element(3, 0)], [p.element(3, 1)]). *)
Definition element (s : Segment) (i : nat) : string :=
  match element_at s i with
  | Some e => e
  | None => ""
  end.

Definition element_sub (s : Segment) (i j : nat) : string :=
  match sub_element_at s i j with
  | Some e => e
  | None => ""
  end.

Definition named (segment_name' : string) (s : Segment) : bool :=
  segment_name s =? segment_name'.

(** Modelled from the spec: the navigator's operations (section 4.2),
    inherited by [Remittance] from classes that are not among the sources.
    [segments_by_name] is every matching segment in document order,
    [segments_by_name_index] pairs each with its position. *)
Definition segments_by_name (segment_name' : string) (data : list Segment)
  : list Segment :=
  filter (named segment_name') data.

Definition segments_by_name_index (segment_name' : string)
  (data : list Segment) : list (Z * Segment) :=
  filter (fun p => named segment_name' (snd p)) (enumerate data).

(** Modelled from the spec: [index_of(identifier, from_index=0)], the first
    position at or after [from_index] that matches, or the sequence length
    when there is none. *)
Definition index_of_segment (segments : list Segment) (segment_name' : string)
  (search_start_idx : Z) : Z :=
  match find (fun p => named segment_name' (snd p)
                       && (search_start_idx <=? fst p)%Z)
             (enumerate segments) with
  | Some p => fst p
  | None => len segments
  end.

(** Modelled from the spec: [first(identifier, from_index=0)], the first
    matching segment from [from_index] on, or the sentinel. *)
Definition _first (segments : list Segment) (segment_name' : string)
  (start_index : Z) : Segment :=
  match find (fun p => named segment_name' (snd p)
                       && (start_index <=? fst p)%Z)
             (enumerate segments) with
  | Some p => snd p
  | None => empty
  end.

End Edi.

Import Edi.

(* ------------------------------------------------------------------ *)
(** ** transaction.py                                                  *)
(* ------------------------------------------------------------------ *)

Module Transaction.

(** The attributes of a [Transaction]; [None] is Python's [None]. *)
Record t : Type := mk {
  data : list Segment;
  format_cls : Delim;
  transaction_type : option string;
  transaction_set_identifier_code : option string;
  transaction_set_control_number : option string;
  implementation_convention_reference : option string
}.

(** The body of the [for segment in self.data] loop of
    [_parse_st_segment]: the first ST sets the three fields and breaks. *)
Fixpoint parse_st_loop (segments : list Segment) (self : t) : t :=
  match segments with
  | [] => self
  | segment :: rest =>
      if segment_name segment =? "ST" then
        mk (data self) (format_cls self) (transaction_type self)
           (Some (element segment 1))
           (Some (element segment 2))
           (Some (element segment 3))
      else parse_st_loop rest self
  end.

Definition _parse_st_segment (self : t) : t :=
  parse_st_loop (data self) self.

Definition __init__ (segments : list Segment) (delim_cls : Delim)
  (transaction_type' : option string) : t :=
  _parse_st_segment (mk segments delim_cls transaction_type' None None None).

End Transaction.

(* ------------------------------------------------------------------ *)
(** ** hls/remittance.py: the 835 payment information                  *)
(* ------------------------------------------------------------------ *)

Module Remittance.

Definition NAME : string := "835".

(** The six segment ranges [__init__] stores before it calls [build]. *)
Record loops : Type := mkLoops {
  trx_header_loop : list Segment;
  payer_loop : list Segment;
  payee_loop : list Segment;
  clm_loop : list Segment;
  trx_summary_loop : list Segment;
  header_number_loop : list Segment
}.

(** A constructed [Remittance]: the ranges and the six records [build]
    computes from them. *)
Record t : Type := mk {
  self_loops : loops;
  trx_header_info : dict;
  payer_info : dict;
  payee_info : dict;
  clm_info : dict;
  plb_info : list dict;
  header_info : dict
}.

Definition populate_header_loop (self : loops) : dict :=
  [
    (* LX elements *)
    ("assigned_num", PStr (element (_first (header_number_loop self) "LX" 0) 1));
    (* TS3 elements *)
    ("ts3", PDict [
      ("provider_identifier", PStr (element (_first (header_number_loop self) "TS3" 0) 1));
      ("facility_code_value", PStr (element (_first (header_number_loop self) "TS3" 0) 2));
      ("fiscal_period_date", PStr (element (_first (header_number_loop self) "TS3" 0) 3));
      ("total_claim_count", PStr (element (_first (header_number_loop self) "TS3" 0) 4));
      ("total_claim_change_amount", PStr (element (_first (header_number_loop self) "TS3" 0) 5));
      ("total_covered_charge_amount", PStr (element (_first (header_number_loop self) "TS3" 0) 6));
      ("total_noncovered_charge_amount", PStr (element (_first (header_number_loop self) "TS3" 0) 7));
      ("total_denied_charge_amount", PStr (element (_first (header_number_loop self) "TS3" 0) 8));
      ("total_provider_amount", PStr (element (_first (header_number_loop self) "TS3" 0) 9));
      ("total_interest_amount", PStr (element (_first (header_number_loop self) "TS3" 0) 10));
      ("total_contractual_adjustment_amount", PStr (element (_first (header_number_loop self) "TS3" 0) 11));
      ("total_gramm_rudman_reduction_amount", PStr (element (_first (header_number_loop self) "TS3" 0) 12));
      ("total_msp_payer_amount", PStr (element (_first (header_number_loop self) "TS3" 0) 13));
      ("total_blood_deductible_amount", PStr (element (_first (header_number_loop self) "TS3" 0) 14));
      ("total_non_lab_charge_amount", PStr (element (_first (header_number_loop self) "TS3" 0) 15));
      ("total_coinsurance_amount", PStr (element (_first (header_number_loop self) "TS3" 0) 16));
      ("total_hcpcs_reported_charge_amount", PStr (element (_first (header_number_loop self) "TS3" 0) 17));
      ("total_hcpcs_payable_amount", PStr (element (_first (header_number_loop self) "TS3" 0) 18));
      ("total_deductible_amount", PStr (element (_first (header_number_loop self) "TS3" 0) 19));
      ("total_professional_component_amount", PStr (element (_first (header_number_loop self) "TS3" 0) 20));
      ("total_msp_patient_liability_met_amount", PStr (element (_first (header_number_loop self) "TS3" 0) 21));
      ("total_patient_reimbursement_amount", PStr (element (_first (header_number_loop self) "TS3" 0) 22));
      ("total_pip_claim_count", PStr (element (_first (header_number_loop self) "TS3" 0) 23));
      ("total_pip_adjustment_amount", PStr (element (_first (header_number_loop self) "TS3" 0) 24))
    ]);
    (* TS2 elements *)
    ("ts2", PDict [
      ("total_drg_amount", PStr (element (_first (header_number_loop self) "TS2" 0) 1));
      ("total_federal_specific_amount", PStr (element (_first (header_number_loop self) "TS2" 0) 2));
      ("total_hospital_specific_amount", PStr (element (_first (header_number_loop self) "TS2" 0) 3));
      ("total_disproportionate_amount", PStr (element (_first (header_number_loop self) "TS2" 0) 4));
      ("total_capital_amount", PStr (element (_first (header_number_loop self) "TS2" 0) 5));
      ("total_indirect_medical_education_amount", PStr (element (_first (header_number_loop self) "TS2" 0) 6));
      ("total_outlier_day_count", PStr (element (_first (header_number_loop self) "TS2" 0) 7));
      ("total_day_outlier_amount", PStr (element (_first (header_number_loop self) "TS2" 0) 8));
      ("total_cost_outlier_amount", PStr (element (_first (header_number_loop self) "TS2" 0) 9));
      ("average_drg_length_of_stay", PStr (element (_first (header_number_loop self) "TS2" 0) 10));
      ("total_discharge_count", PStr (element (_first (header_number_loop self) "TS2" 0) 11));
      ("total_cost_report_day_count", PStr (element (_first (header_number_loop self) "TS2" 0) 12));
      ("total_covered_day_count", PStr (element (_first (header_number_loop self) "TS2" 0) 13));
      ("total_noncovered_day_count", PStr (element (_first (header_number_loop self) "TS2" 0) 14));
      ("total_msp_pass_through_amount", PStr (element (_first (header_number_loop self) "TS2" 0) 15));
      ("average_drg_weight", PStr (element (_first (header_number_loop self) "TS2" 0) 16));
      ("total_pps_capital_fsp_drg_amount", PStr (element (_first (header_number_loop self) "TS2" 0) 17));
      ("total_psp_capital_hsp_drg_amount", PStr (element (_first (header_number_loop self) "TS2" 0) 18));
      ("total_pps_dsh_drg_amount", PStr (element (_first (header_number_loop self) "TS2" 0) 19))
    ])
  ].

Definition populate_plb_loop (self : loops) : list dict :=
  reduce1
    (fun x y => x ++ y)
    (map
       (fun p =>
          [
            ("provider_identifier", PStr (element p 1));
            ("fiscal_period_date", PStr (element p 2));
            ("provider_adjustment_reason_cd_1", if (segment_len p >? 3)%Z then PStr (element_sub p 3 0) else PNone);
            ("provider_adjustment_id_1", if (segment_len p >? 3)%Z then PStr (element_sub p 3 1) else PNone);
            ("provider_adjustment_amt_1", if (segment_len p >? 4)%Z then PStr (element p 4) else PNone);
            ("provider_adjustment_reason_cd_2", if (segment_len p >? 5)%Z then PStr (element_sub p 5 0) else PNone);
            ("provider_adjustment_id_2", if (segment_len p >? 5)%Z then PStr (element_sub p 5 1) else PNone);
            ("provider_adjustment_amt_2", if (segment_len p >? 6)%Z then PStr (element p 6) else PNone);
            ("provider_adjustment_reason_cd_3", if (segment_len p >? 7)%Z then PStr (element_sub p 7 0) else PNone);
            ("provider_adjustment_id_3", if (segment_len p >? 7)%Z then PStr (element_sub p 7 1) else PNone);
            ("provider_adjustment_amt_3", if (segment_len p >? 8)%Z then PStr (element p 8) else PNone);
            ("provider_adjustment_reason_cd_4", if (segment_len p >? 9)%Z then PStr (element_sub p 9 0) else PNone);
            ("provider_adjustment_id_4", if (segment_len p >? 9)%Z then PStr (element_sub p 9 1) else PNone);
            ("provider_adjustment_amt_4", if (segment_len p >? 10)%Z then PStr (element p 10) else PNone);
            ("provider_adjustment_reason_cd_5", if (segment_len p >? 11)%Z then PStr (element_sub p 11 0) else PNone);
            ("provider_adjustment_id_5", if (segment_len p >? 11)%Z then PStr (element_sub p 11 1) else PNone);
            ("provider_adjustment_amt_5", if (segment_len p >? 12)%Z then PStr (element p 12) else PNone);
            ("provider_adjustment_reason_cd_6", if (segment_len p >? 13)%Z then PStr (element_sub p 13 0) else PNone);
            ("provider_adjustment_id_6", if (segment_len p >? 13)%Z then PStr (element_sub p 13 1) else PNone);
            ("provider_adjustment_amt_6", if (segment_len p >? 14)%Z then PStr (element p 14) else PNone)
          ])
       (segments_by_name "PLB" (trx_summary_loop self)))
    [ [] ].

Definition populate_payer_loop (self : loops) : dict :=
  [
    ("entity_identifier_code", PStr (element (_first (payer_loop self) "N1" 0) 1));
    ("payer_name", PStr (element (_first (payer_loop self) "N1" 0) 2));
    ("id_code_qualifier", PStr (element (_first (payer_loop self) "N1" 0) 3));
    ("payer_identifier", PStr (element (_first (payer_loop self) "N1" 0) 4));
    ("entity_relationship_code", PStr (element (_first (payer_loop self) "N1" 0) 5));
    ("payer_address_line_1", PStr (element (_first (payer_loop self) "N3" 0) 1));
    ("payer_address_line_2", PStr (element (_first (payer_loop self) "N3" 0) 2));
    ("payer_city_name", PStr (element (_first (payer_loop self) "N4" 0) 1));
    ("payer_state_code", PStr (element (_first (payer_loop self) "N4" 0) 2));
    ("payer_postal_zone_or_zip_code", PStr (element (_first (payer_loop self) "N4" 0) 3));
    ("country_code", PStr (element (_first (payer_loop self) "N4" 0) 4));
    ("location_qualifier", PStr (element (_first (payer_loop self) "N4" 0) 5));
    ("country_subdivision_code", PStr (element (_first (payer_loop self) "N4" 0) 7));
    ("payer_contact_info", PList
      (map
         (fun c => PDict [
           ("contact_function_cd", PStr (element c 1));
           ("contact_name", PStr (element c 2));
           ("communication_number_qualifier1", PStr (element c 3));
           ("contact_communication1", PStr (element c 4));
           ("communication_number_qualifier2", PStr (element c 5));
           ("contact_communication2", PStr (element c 6));
           ("communication_number_qualifier3", PStr (element c 7));
           ("contact_communication3", PStr (element c 8));
           ("contact_inquiry_reference", PStr (element c 9))
         ])
         (segments_by_name "PER" (payer_loop self))));
    ("payer_additional_identification", PList
      (map
         (fun c => PDict [
           ("id_qualifier_code", PStr (element c 1));
           ("id", PStr (element c 2));
           ("description", PStr (element c 3))
         ])
         (segments_by_name "REF" (payer_loop self))))
  ].

Definition populate_payee_loop (self : loops) : dict :=
  [
    ("entity_identifier_code", PStr (element (_first (payee_loop self) "N1" 0) 1));
    ("payee_name", PStr (element (_first (payee_loop self) "N1" 0) 2));
    ("id_code_qualifier", PStr (element (_first (payee_loop self) "N1" 0) 3));
    ("payee_identifier", PStr (element (_first (payee_loop self) "N1" 0) 4));
    ("entity_relationship_code", PStr (element (_first (payee_loop self) "N1" 0) 5));
    ("payee_address_line_1", PStr (element (_first (payee_loop self) "N3" 0) 1));
    ("payee_address_line_2", PStr (element (_first (payee_loop self) "N3" 0) 2));
    ("payee_city_name", PStr (element (_first (payee_loop self) "N4" 0) 1));
    ("payee_state_code", PStr (element (_first (payee_loop self) "N4" 0) 2));
    ("payee_postal_zone_or_zip_code", PStr (element (_first (payee_loop self) "N4" 0) 3));
    ("country_code", PStr (element (_first (payee_loop self) "N4" 0) 4));
    ("location_qualifier", PStr (element (_first (payee_loop self) "N4" 0) 5));
    ("country_subdivision_code", PStr (element (_first (payee_loop self) "N4" 0) 7));
    ("payee_additional_identification", PList
      (map
         (fun c => PDict [
           ("id_qualifier_code", PStr (element c 1));
           ("id", PStr (element c 2));
           ("description", PStr (element c 3))
         ])
         (segments_by_name "REF" (payee_loop self))));
    ("delivery_report_transmission_code", PStr (element (_first (payee_loop self) "RDM" 0) 1));
    ("delivery_name", PStr (element (_first (payee_loop self) "RDM" 0) 2));
    ("delivery_communication_number", PStr (element (_first (payee_loop self) "RDM" 0) 3));
    ("delivery_reference_identifier", PStr (element (_first (payee_loop self) "RDM" 0) 4))
  ].

Definition populate_trx_loop (self : loops) : dict :=
  [
    ("dtm", PDict [
      ("date_code", PStr (element (_first (trx_header_loop self) "DTM" 0) 1));
      ("date", PStr (element (_first (trx_header_loop self) "DTM" 0) 2));
      ("time", PStr (element (_first (trx_header_loop self) "DTM" 0) 3))
    ]);
    ("bpr", PDict [
      ("transaction_handling_code", PStr (element (_first (trx_header_loop self) "BPR" 0) 1));
      ("total_actual_provider_payment_amt", PStr (element (_first (trx_header_loop self) "BPR" 0) 2));
      ("creditor_debit_flag_code", PStr (element (_first (trx_header_loop self) "BPR" 0) 3));
      ("payment_method_code", PStr (element (_first (trx_header_loop self) "BPR" 0) 4));
      ("payment_format_code", PStr (element (_first (trx_header_loop self) "BPR" 0) 5));
      ("sender_dfiid_number_qualifier", PStr (element (_first (trx_header_loop self) "BPR" 0) 6));
      ("sender_dfi_identifier", PStr (element (_first (trx_header_loop self) "BPR" 0) 7));
      ("sender_account_number_qualifier", PStr (element (_first (trx_header_loop self) "BPR" 0) 8));
      ("sender_bank_acct_number", PStr (element (_first (trx_header_loop self) "BPR" 0) 9));
      ("payer_identifier", PStr (element (_first (trx_header_loop self) "BPR" 0) 10));
      ("payer_originating_co_supplemental_code", PStr (element (_first (trx_header_loop self) "BPR" 0) 11));
      ("receiver_dfiid_number_qualifier", PStr (element (_first (trx_header_loop self) "BPR" 0) 12));
      ("receiver_or_provider_bank_id_number", PStr (element (_first (trx_header_loop self) "BPR" 0) 13));
      ("receiver_acct_number_qualifier", PStr (element (_first (trx_header_loop self) "BPR" 0) 14));
      ("receiver_or_provider_account_number", PStr (element (_first (trx_header_loop self) "BPR" 0) 15));
      ("check_issue_or_eft_effective_date", PStr (element (_first (trx_header_loop self) "BPR" 0) 16));
      ("business_function_code", PStr (element (_first (trx_header_loop self) "BPR" 0) 17))
    ]);
    ("trn", PDict [
      ("trace_type_code", PStr (element (_first (trx_header_loop self) "TRN" 0) 1));
      ("check_or_eft_trace_number", PStr (element (_first (trx_header_loop self) "TRN" 0) 2));
      ("trace_payer_identifier", PStr (element (_first (trx_header_loop self) "TRN" 0) 3));
      ("trace_payer_originating_co_supplemental_code", PStr (element (_first (trx_header_loop self) "TRN" 0) 4))
    ])
  ].

Definition _populate_names (loop : list Segment) : list pyval :=
  map
    (fun x => PDict [
      ("entity_identifier_code", PStr (element x 1));
      ("entity_type_qualifier", PStr (element x 2));
      ("last_name_or_organization", PStr (element x 3));
      ("first_name", PStr (element x 4));
      ("middle_name", PStr (element x 5));
      ("name_prefix", PStr (element x 6));
      ("name_suffix", PStr (element x 7));
      ("id_code_qualifier", PStr (element x 8));
      ("identifier", PStr (element x 9));
      ("entity_relationship_code", PStr (element x 10))
    ])
    (filter (fun x => segment_name x =? "NM1") loop).

(* group adjustment logic *)

Definition populate_adjustment_groups (cas : Segment) : list pyval :=
  let group_code := element cas 1 in
  [
    PDict [
      ("adjustment_grp_cd", PStr group_code);
      ("adjustment_reason_cd_1", PStr (element cas 2));
      ("adjustment_amount_1", PStr (element cas 3));
      ("adjustment_quantity_1", PStr (element cas 4));
      ("adjustment_reason_cd_2", PStr (element cas 5));
      ("adjustment_amount_2", PStr (element cas 6));
      ("adjustment_quantity_2", PStr (element cas 7));
      ("adjustment_reason_cd_3", PStr (element cas 8));
      ("adjustment_amount_3", PStr (element cas 9));
      ("adjustment_quantity_3", PStr (element cas 10));
      ("adjustment_reason_cd_4", PStr (element cas 11));
      ("adjustment_amount_4", PStr (element cas 12));
      ("adjustment_quantity_4", PStr (element cas 13));
      ("adjustment_reason_cd_5", PStr (element cas 14));
      ("adjustment_amount_5", PStr (element cas 15));
      ("adjustment_quantity_5", PStr (element cas 16));
      ("adjustment_reason_cd_6", PStr (element cas 17));
      ("adjustment_amount_6", PStr (element cas 18));
      ("adjustment_quantity_6", PStr (element cas 19))
    ]
  ].

(** [svc] is the SVC segment of the service rendered, [idx] the index where
    it is found within [clm_loop], [svc_end_idx] (the source's comment) the
    last segment associated with the service. *)
Definition populate_claim_line (self : loops) (svc : Segment)
  (idx svc_end_idx : Z) : dict :=
  [
    ("claim_line_details", PDict [
      ("prcdr_cd", PStr (element svc 1));
      ("chrg_amt", PStr (element svc 2));
      ("paid_amt", PStr (element svc 3));
      ("rev_cd", PStr (element svc 4));
      ("units", PStr (element svc 5));
      ("original_prcdr_cd", PStr (element svc 6));
      ("original_units_of_service_count", PStr (element svc 7))
    ]);
    ("claim_line_dates", PDict [
      ("date_code", PStr (element (_first (clm_loop self) "DTM" idx) 1));
      ("date", PStr (element (_first (clm_loop self) "DTM" idx) 2));
      ("time", PStr (element (_first (clm_loop self) "DTM" idx) 3))
    ]);
    ("claim_line_supplemental_amount", PList
      (map
         (fun a => PDict [
           ("amt_qualifier_cd", PStr (element a 1));
           ("amt", PStr (element a 2));
           ("credit_debit_flag_code", PStr (element a 3))
         ])
         (segments_by_name "AMT"
            (py_slice (clm_loop self) (Some idx) (Some svc_end_idx)))));
    ("claim_line_supplemental_quantity", PList
      (map
         (fun a => PDict [
           ("quantity_qualifier", PStr (element a 1));
           ("qty", PStr (element a 2));
           ("composite_unit_of_measure", PStr (element a 3))
         ])
         (segments_by_name "AMT"
            (py_slice (clm_loop self) (Some idx) (Some svc_end_idx)))));
    ("claim_line_remarks", PList
      (map
         (fun x =>
            PDict [("qualifier_cd", PStr (element x 1)); ("remark_cd", PStr (element x 2))])
         (segments_by_name "LQ"
            (py_slice (clm_loop self) (Some idx) (Some svc_end_idx)))));
    (* line level service adjustments *)
    ("claim_line_adjustments", PList
      (reduce
         (fun x y => x ++ y)
         (map
            (fun x => populate_adjustment_groups x)
            (segments_by_name "CAS"
               (py_slice (clm_loop self) (Some idx) (Some svc_end_idx))))
         []));
    ("claim_line_related_identifications", PList
      (map
         (fun x => PDict [
           ("id_code_qualifier", PStr (element x 1));
           ("id", PStr (element x 2));
           ("description", PStr (element x 3))
         ])
         (segments_by_name "REF"
            (py_slice (clm_loop self) (Some idx) (Some svc_end_idx)))))
  ].

(** [None] stands for an exception: the two places of the source that can
    raise on their own are the subscript [(...)[0]] and [min] of a filtered
    list. *)
Definition populate_claim_loop (self : loops) : option dict :=
  end_clp_index <-
    py_getitem
      (map fst
         (filter (fun iz => snd iz =? "CLP")
            (enumerate
               (map (fun y => segment_name y)
                  (py_slice (clm_loop self) (Some 1%Z) None))))
       ++ [len (clm_loop self)])
      0 ;;
  claim_adjustments_end <-
    py_min
      (filter
         (fun x => (x >=? 0)%Z)
         [
           index_of_segment (clm_loop self) "SVC" 0;
           (len (clm_loop self) - 1)%Z
         ]) ;;
  Some [
    ("clp", PDict [
      ("patient_control_number", PStr (element (_first (clm_loop self) "CLP" 0) 1));
      ("claim_status_code", PStr (element (_first (clm_loop self) "CLP" 0) 2));
      ("total_claim_charge_amount", PStr (element (_first (clm_loop self) "CLP" 0) 3));
      ("claim_payment_amount", PStr (element (_first (clm_loop self) "CLP" 0) 4));
      ("patient_responsibility_amount", PStr (element (_first (clm_loop self) "CLP" 0) 5));
      ("claim_filing_indicator_code", PStr (element (_first (clm_loop self) "CLP" 0) 6));
      ("payer_claim_control_number", PStr (element (_first (clm_loop self) "CLP" 0) 7));
      ("facility_code_value", PStr (element (_first (clm_loop self) "CLP" 0) 8));
      ("claim_frequency_code", PStr (element (_first (clm_loop self) "CLP" 0) 9));
      ("patient_status_code", PStr (element (_first (clm_loop self) "CLP" 0) 10));
      ("drg_code", PStr (element (_first (clm_loop self) "CLP" 0) 11));
      ("drg_weight", PStr (element (_first (clm_loop self) "CLP" 0) 12));
      ("discharge_fraction", PStr (element (_first (clm_loop self) "CLP" 0) 13));
      ("yes_no_condition_or_response_code", PStr (element (_first (clm_loop self) "CLP" 0) 14))
    ]);
    ("first_nm1_patient", PDict [
      ("entity_identifier_code", PStr (element (_first (clm_loop self) "NM1" 0) 1));
      ("entity_type_qualifier", PStr (element (_first (clm_loop self) "NM1" 0) 2));
      ("last_name_or_organization", PStr (element (_first (clm_loop self) "NM1" 0) 3));
      ("first_name", PStr (element (_first (clm_loop self) "NM1" 0) 4));
      ("middle_name", PStr (element (_first (clm_loop self) "NM1" 0) 5));
      ("name_prefix", PStr (element (_first (clm_loop self) "NM1" 0) 6));
      ("name_suffix", PStr (element (_first (clm_loop self) "NM1" 0) 7));
      ("id_code_qualifier", PStr (element (_first (clm_loop self) "NM1" 0) 8));
      ("identifier", PStr (element (_first (clm_loop self) "NM1" 0) 9));
      ("entity_relationship_code", PStr (element (_first (clm_loop self) "NM1" 0) 10))
    ]);
    ("claim_names", PList
      (_populate_names (py_slice (clm_loop self) None (Some end_clp_index))));
    ("claim_contacts", PList
      (map
         (fun c => PDict [
           ("contact_function_cd", PStr (element c 1));
           ("contact_name", PStr (element c 2));
           ("communication_number_qualifier1", PStr (element c 3));
           ("contact_communication1", PStr (element c 4));
           ("communication_number_qualifier2", PStr (element c 5));
           ("contact_communication2", PStr (element c 6));
           ("communication_number_qualifier3", PStr (element c 7));
           ("contact_communication3", PStr (element c 8));
           ("contact_inquiry_reference", PStr (element c 9))
         ])
         (segments_by_name "PER"
            (py_slice (clm_loop self) None
               (Some (index_of_segment (clm_loop self) "SVC" 0))))));
    ("mia", PDict [
      ("covered_days_or_visits_count", PStr (element (_first (clm_loop self) "MIA" 0) 1));
      ("pps_operation_outlier_amount", PStr (element (_first (clm_loop self) "MIA" 0) 2));
      ("lifetime_psychiatric_days_count", PStr (element (_first (clm_loop self) "MIA" 0) 3));
      ("claim_drg_amount", PStr (element (_first (clm_loop self) "MIA" 0) 4));
      ("claim_payment_remark_code", PStr (element (_first (clm_loop self) "MIA" 0) 5));
      ("claim_dsh_amount", PStr (element (_first (clm_loop self) "MIA" 0) 6));
      ("claim_msp_pass_thru_amount", PStr (element (_first (clm_loop self) "MIA" 0) 7));
      ("claim_pps_capital_amount", PStr (element (_first (clm_loop self) "MIA" 0) 8));
      ("pps_capital_fsp_drg_amount", PStr (element (_first (clm_loop self) "MIA" 0) 9));
      ("pps_capital_hsp_drg_amount", PStr (element (_first (clm_loop self) "MIA" 0) 10));
      ("pps_capital_dsh_drg_amount", PStr (element (_first (clm_loop self) "MIA" 0) 11));
      ("old_capital_amount", PStr (element (_first (clm_loop self) "MIA" 0) 12));
      ("pps_capital_ime_amount", PStr (element (_first (clm_loop self) "MIA" 0) 13));
      ("pps_oper_hsp_spec_drg_amount", PStr (element (_first (clm_loop self) "MIA" 0) 14));
      ("cost_report_day_count", PStr (element (_first (clm_loop self) "MIA" 0) 15));
      ("pps_oper_fsp_spec_drg_amount", PStr (element (_first (clm_loop self) "MIA" 0) 16));
      ("claim_pps_outlier_amount", PStr (element (_first (clm_loop self) "MIA" 0) 17));
      ("claim_indirect_teaching", PStr (element (_first (clm_loop self) "MIA" 0) 18));
      ("non_pay_prof_comp_amount", PStr (element (_first (clm_loop self) "MIA" 0) 19));
      ("inpatient_claim_payment_remark_code_1", PStr (element (_first (clm_loop self) "MIA" 0) 20));
      ("inpatient_claim_payment_remark_code_2", PStr (element (_first (clm_loop self) "MIA" 0) 21));
      ("inpatient_claim_payment_remark_code_3", PStr (element (_first (clm_loop self) "MIA" 0) 22));
      ("inpatient_claim_payment_remark_code_4", PStr (element (_first (clm_loop self) "MIA" 0) 23));
      ("pps_capital_exception_amount", PStr (element (_first (clm_loop self) "MIA" 0) 24))
    ]);
    ("moa", PDict [
      ("reimbursement_rate", PStr (element (_first (clm_loop self) "MOA" 0) 1));
      ("claim_hcpcs_payable_amount", PStr (element (_first (clm_loop self) "MOA" 0) 2));
      ("outpatient_claim_payment_remark_code_1", PStr (element (_first (clm_loop self) "MOA" 0) 3));
      ("outpatient_claim_payment_remark_code_2", PStr (element (_first (clm_loop self) "MOA" 0) 4));
      ("outpatient_claim_payment_remark_code_3", PStr (element (_first (clm_loop self) "MOA" 0) 5));
      ("outpatient_claim_payment_remark_code_4", PStr (element (_first (clm_loop self) "MOA" 0) 6));
      ("outpatient_claim_payment_remark_code_5", PStr (element (_first (clm_loop self) "MOA" 0) 7));
      ("claim_esrd_payment_amount", PStr (element (_first (clm_loop self) "MOA" 0) 8));
      ("non_payable_professional_comp_amount", PStr (element (_first (clm_loop self) "MOA" 0) 9))
    ]);
    ("claim_related_identifications", PList
      (map
         (fun x => PDict [
           ("id_qualifier_code", PStr (element x 1));
           ("id", PStr (element x 2));
           ("description", PStr (element x 3))
         ])
         (segments_by_name "REF"
            (py_slice (clm_loop self) None
               (Some (index_of_segment (clm_loop self) "SVC" 0))))));
    ("claim_supplemental_amount", PList
      (map
         (fun x => PDict [
           ("amount_qualifier_code", PStr (element x 1));
           ("amt", PStr (element x 2));
           ("credit_debit_flag_code", PStr (element x 3))
         ])
         (segments_by_name "AMT"
            (py_slice (clm_loop self) None
               (Some (index_of_segment (clm_loop self) "SVC" 0))))));
    ("claim_supplemental_quantity", PList
      (map
         (fun x => PDict [
           ("quantity_qualifier_code", PStr (element x 1));
           ("qty", PStr (element x 2));
           ("composite_unit_of_measure", PStr (element x 3))
         ])
         (segments_by_name "QTY"
            (py_slice (clm_loop self) None
               (Some (index_of_segment (clm_loop self) "SVC" 0))))));
    (* Claim level service adjustments CAS *)
    ("claim_adjustments", PList
      (reduce
         (fun x y => x ++ y)
         (map
            (fun x => populate_adjustment_groups x)
            (segments_by_name "CAS"
               (py_slice (clm_loop self) (Some 1%Z)
                  (Some claim_adjustments_end))))
         []));
    ("claim_lines", PList
      (map
         (fun i_seg =>
            let i := fst i_seg in
            let seg := snd i_seg in
            PDict
              (populate_claim_line self
                 seg
                 i
                 (Z.min
                    (index_of_segment (clm_loop self) "SVC" (i + 1))
                    (len (clm_loop self) - 1))))
         (segments_by_name_index "SVC" (clm_loop self))));
    ("claim_dates", PList
      (map
         (fun x => PDict [
           ("date_code", PStr (element x 1));
           ("date", PStr (element x 2));
           ("time", PStr (element x 3))
         ])
         (filter (fun x => segment_name x =? "DTM") (clm_loop self))))
  ].

Definition build (self : loops) : option t :=
  let trx_header_info' := populate_trx_loop self in
  let payer_info' := populate_payer_loop self in
  let payee_info' := populate_payee_loop self in
  clm_info' <- populate_claim_loop self ;;
  let plb_info' := populate_plb_loop self in
  let header_info' := populate_header_loop self in
  Some (mk self trx_header_info' payer_info' payee_info' clm_info'
          plb_info' header_info').

Definition __init__
  (trx_header_loop' payer_loop' payee_loop' clm_loop' trx_summary_loop'
     header_number_loop' : list Segment) : option t :=
  build (mkLoops trx_header_loop' payer_loop' payee_loop' clm_loop'
           trx_summary_loop' header_number_loop').

Definition to_json (self : t) : dict :=
  dict_unpack
    [
      [("payment", PDict (trx_header_info self))];
      [("payer", PDict (payer_info self))];
      [("payee", PDict (payee_info self))];
      [("claim", PDict (clm_info self))];
      [("provider_adjustments", PList (map PDict (plb_info self)))];
      [("header_info", PDict (header_info self))]
    ].

End Remittance.

(* ------------------------------------------------------------------ *)
(** ** transaction.py: pickling                                        *)
(* ------------------------------------------------------------------ *)

Module TransactionState.

(** What a pickled state holds under a key: the segment list, the delimiter
    class, a string or None. *)
Inductive attr : Type :=
| AData (segments : list Segment)
| AFormat (delim_cls : Delim)
| AStr (s : string)
| ANone.

(** The state dictionary, in insertion order. *)
Definition state := list (string * attr).

(** How a failed restore ends: [KeyError] is Python's, raised by
    [state[k]] on a missing key; [IllTyped] marks a state whose value under
    [k] is not of the kind the attribute holds, which this embedding of the
    attributes cannot store. *)
Inductive exn : Type :=
| KeyError (k : string)
| IllTyped (k : string).

Fixpoint lookup (k : string) (st : state) : option attr :=
  match st with
  | [] => None
  | (k', v) :: rest => if k' =? k then Some v else lookup k rest
  end.

(** [state.get(k)]: None for a missing key. *)
Definition get (st : state) (k : string) : attr :=
  match lookup k st with
  | Some v => v
  | None => ANone
  end.

Definition of_opt (o : option string) : attr :=
  match o with
  | Some s => AStr s
  | None => ANone
  end.

Definition as_opt (a : attr) : option (option string) :=
  match a with
  | AStr s => Some (Some s)
  | ANone => Some None
  | _ => None
  end.

Definition __getstate__ (self : Transaction.t) : state :=
  [
    ("data", AData (Transaction.data self));
    ("format_cls", AFormat (Transaction.format_cls self));
    ("transaction_type", of_opt (Transaction.transaction_type self));
    ("transaction_set_identifier_code",
     of_opt (Transaction.transaction_set_identifier_code self));
    ("transaction_set_control_number",
     of_opt (Transaction.transaction_set_control_number self));
    ("implementation_convention_reference",
     of_opt (Transaction.implementation_convention_reference self))
  ].

(** One assignment of [__setstate__]: the object after it, and the
    exception when it raised (the object is then as it was before). *)
Definition step := Transaction.t -> Transaction.t * option exn.

(** Statements in sequence: the first exception ends the run and leaves the
    earlier assignments in place. *)
Fixpoint run (steps : list step) (self : Transaction.t)
  : Transaction.t * option exn :=
  match steps with
  | [] => (self, None)
  | s :: rest =>
      match s self with
      | (self', None) => run rest self'
      | (self', Some e) => (self', Some e)
      end
  end.

(** [self.data = state['data']]. *)
Definition set_data (st : state) : step := fun self =>
  match lookup "data" st with
  | None => (self, Some (KeyError "data"))
  | Some (AData d) =>
      (Transaction.mk d (Transaction.format_cls self)
         (Transaction.transaction_type self)
         (Transaction.transaction_set_identifier_code self)
         (Transaction.transaction_set_control_number self)
         (Transaction.implementation_convention_reference self), None)
  | Some _ => (self, Some (IllTyped "data"))
  end.

(** [self.format_cls = state['format_cls']]. *)
Definition set_format_cls (st : state) : step := fun self =>
  match lookup "format_cls" st with
  | None => (self, Some (KeyError "format_cls"))
  | Some (AFormat f) =>
      (Transaction.mk (Transaction.data self) f
         (Transaction.transaction_type self)
         (Transaction.transaction_set_identifier_code self)
         (Transaction.transaction_set_control_number self)
         (Transaction.implementation_convention_reference self), None)
  | Some _ => (self, Some (IllTyped "format_cls"))
  end.

(** [self.transaction_type = state['transaction_type']]. *)
Definition set_transaction_type (st : state) : step := fun self =>
  match lookup "transaction_type" st with
  | None => (self, Some (KeyError "transaction_type"))
  | Some v =>
      match as_opt v with
      | Some ty =>
          (Transaction.mk (Transaction.data self) (Transaction.format_cls self)
             ty
             (Transaction.transaction_set_identifier_code self)
             (Transaction.transaction_set_control_number self)
             (Transaction.implementation_convention_reference self), None)
      | None => (self, Some (IllTyped "transaction_type"))
      end
  end.

(** [self.transaction_set_identifier_code =
     state.get('transaction_set_identifier_code')]. *)
Definition set_identifier_code (st : state) : step := fun self =>
  match as_opt (get st "transaction_set_identifier_code") with
  | Some v =>
      (Transaction.mk (Transaction.data self) (Transaction.format_cls self)
         (Transaction.transaction_type self)
         v
         (Transaction.transaction_set_control_number self)
         (Transaction.implementation_convention_reference self), None)
  | None => (self, Some (IllTyped "transaction_set_identifier_code"))
  end.

(** [self.transaction_set_control_number =
     state.get('transaction_set_control_number')]. *)
Definition set_control_number (st : state) : step := fun self =>
  match as_opt (get st "transaction_set_control_number") with
  | Some v =>
      (Transaction.mk (Transaction.data self) (Transaction.format_cls self)
         (Transaction.transaction_type self)
         (Transaction.transaction_set_identifier_code self)
         v
         (Transaction.implementation_convention_reference self), None)
  | None => (self, Some (IllTyped "transaction_set_control_number"))
  end.

(** [self.implementation_convention_reference =
     state.get('implementation_convention_reference')]. *)
Definition set_convention_reference (st : state) : step := fun self =>
  match as_opt (get st "implementation_convention_reference") with
  | Some v =>
      (Transaction.mk (Transaction.data self) (Transaction.format_cls self)
         (Transaction.transaction_type self)
         (Transaction.transaction_set_identifier_code self)
         (Transaction.transaction_set_control_number self)
         v, None)
  | None => (self, Some (IllTyped "implementation_convention_reference"))
  end.

Definition __setstate__ (self : Transaction.t) (st : state)
  : Transaction.t * option exn :=
  run
    [
      set_data st;
      set_format_cls st;
      set_transaction_type st;
      set_identifier_code st;
      set_control_number st;
      set_convention_reference st
    ]
    self.

End TransactionState.

(* ------------------------------------------------------------------ *)
(** ** common/SecureLogging.py: sanitizing error text                  *)
(* ------------------------------------------------------------------ *)

Module SecureLogger.

Local Open Scope string_scope.

(** A character of a Python string is one character of a [string] here;
    [len] and slices count characters. *)
Definition str_len (s : string) : Z := len (list_ascii_of_string s).

(** [s[:stop]]. *)
Definition str_slice_to (s : string) (stop : Z) : string :=
  string_of_list_ascii (py_slice (list_ascii_of_string s) None (Some stop)).

(** What the logger reads of an exception: [type(e).__name__] and
    [str(e)]. *)
Record Exception : Type := mkException {
  type_name : string;
  message : string
}.

(** The double quote, which the connection-string pattern excludes. *)
Definition dquote : string := String (ascii_of_nat 34) "".

(** Patterns that indicate sensitive data, each with its replacement. *)
Definition REDACTION_PATTERNS : list (string * string) :=
  [
    (* Connection strings *)
    ("(password|pwd)\s*[=:]\s*[^\s;]+", "\1=***REDACTED***");
    ("(server|host)\s*[=:]\s*[^\s;]+", "\1=***REDACTED***");
    ("(user\s*id|uid|username)\s*[=:]\s*[^\s;]+", "\1=***REDACTED***");
    (* API keys and tokens *)
    ("(api[_-]?key|apikey)\s*[=:]\s*[^\s]+", "\1=***REDACTED***");
    ("(bearer|token)\s+[a-zA-Z0-9\-_\.]+", "\1 ***REDACTED***");
    ("(authorization)\s*[=:]\s*[^\s]+", "\1=***REDACTED***");
    (* Azure/AWS patterns *)
    ("(AccountKey|SharedAccessSignature)\s*[=:]\s*[^\s;]+",
     "\1=***REDACTED***");
    ("DefaultEndpointsProtocol=https;[^" ++ dquote ++ "\']+",
     "***CONNECTION_STRING_REDACTED***");
    ("(aws[_-]?access[_-]?key[_-]?id|aws[_-]?secret)\s*[=:]\s*[^\s]+",
     "\1=***REDACTED***");
    (* File paths that might expose infrastructure *)
    ("/dbfs/mnt/[^\s]+", "/dbfs/mnt/***PATH_REDACTED***");
    ("abfss://[^\s]+", "abfss://***STORAGE_REDACTED***");
    (* IP addresses *)
    ("\b\d{1,3}\.\d{1,3}\.\d{1,3}\.\d{1,3}\b", "***IP_REDACTED***");
    (* Email addresses *)
    ("[a-zA-Z0-9._%+-]+@[a-zA-Z0-9.-]+\.[a-zA-Z]{2,}", "***EMAIL_REDACTED***")
  ].

Section Libraries.

(** The standard library calls the logger makes, taken as they are:
    [re.compile(pattern, re.IGNORECASE).sub(replacement, text)] and
    [hashlib.sha256(text.encode()).hexdigest()]; and the type of the
    [dbutils] object, which the logger only stores. *)
Variable re_sub : string -> string -> string -> string.
Variable sha256_hexdigest : string -> string.
Variable Dbutils : Type.

Record t : Type := mk {
  dbutils : option Dbutils;
  log_table : option string;
  max_message_length : Z;
  _compiled_patterns : list (string * string)
}.

(** A compiled pattern is kept as its pattern text; [re_sub] stands for
    compiling and substituting. *)
Definition __init__ (dbutils' : option Dbutils) (log_table' : option string)
  (max_message_length' : Z) : t :=
  mk dbutils' log_table' max_message_length'
    (map (fun pr => (fst pr, snd pr)) REDACTION_PATTERNS).

Definition sanitize (self : t) (text : string) : string :=
  if text =? "" then ""
  else
    let sanitized :=
      fold_left (fun sanitized pr => re_sub (fst pr) (snd pr) sanitized)
        (_compiled_patterns self) text in
    (* Truncate if too long *)
    if (str_len sanitized >? max_message_length self)%Z
    then str_slice_to sanitized (max_message_length self) ++ "... [truncated]"
    else sanitized.

Definition get_safe_exception_type (self : t) (exception : Exception)
  : string :=
  type_name exception.

Definition get_error_hash (self : t) (exception : Exception) : string :=
  let error_str :=
    type_name exception ++ ":" ++ str_slice_to (message exception) 100 in
  str_slice_to (sha256_hexdigest error_str) 12.

(** [safe_error_message(exception, max_length)]; the source's default for
    [max_length] is 200. *)
Definition safe_error_message (exception : Exception) (max_length : Z)
  : string :=
  let logger := __init__ None None max_length in
  get_safe_exception_type logger exception ++ ": "
  ++ sanitize logger (message exception).

End Libraries.

End SecureLogger.

(* ------------------------------------------------------------------ *)
(** ** Concrete segments used by the examples                          *)
(* ------------------------------------------------------------------ *)

Module Samples.

Definition seg (name : string) (els : list string) : Segment :=
  mkSegment name els AnsiX12Delim.

Definition st_835 : Segment := seg "ST" ["835"; "0001"; "005010X221A1"].
Definition st_837 : Segment := seg "ST" ["837"; "0002"].
Definition bpr : Segment := seg "BPR" ["I"; "1500.00"; "C"; "ACH"].
Definition se : Segment := seg "SE" ["4"; "0001"].

(** A CAS segment with the group code and one triple only. *)
Definition cas_one : Segment := seg "CAS" ["CO"; "45"; "10.00"; "1"].

(** A PLB segment of length 7: the identifier and two full groups. *)
Definition plb_two : Segment :=
  seg "PLB" ["1234567890"; "20241231"; "WO:CTL1"; "25.00"; "72:CTL2"; "-5.00"].

Definition clp : Segment := seg "CLP" ["PCN1"; "1"; "200.00"; "150.00"].
Definition svc_a : Segment := seg "SVC" ["HC:99213"; "120.00"; "90.00"].
Definition svc_b : Segment := seg "SVC" ["HC:85025"; "80.00"; "60.00"].
Definition dtm_a : Segment := seg "DTM" ["472"; "20240105"].
Definition amt_a : Segment := seg "AMT" ["B6"; "90.00"].
Definition per_a : Segment := seg "PER" ["CX"; "HELP DESK"; "TE"; "8005551212"].
Definition cas_line : Segment := seg "CAS" ["PR"; "1"; "20.00"].

Definition only_clm (clm : list Segment) : Remittance.loops :=
  Remittance.mkLoops [] [] [] clm [] [].

(** Ten characters, and a text of [10 * n] characters. *)
Definition ten : string := "0123456789".

Fixpoint tens (n : nat) : string :=
  match n with
  | O => ""
  | S k => ten ++ tens k
  end.

(** A substitution that blanks out what the pattern names, standing in for
    [re] in the examples: every text becomes the replacement. *)
Definition blanking_sub (pattern replacement text : string) : string :=
  replacement.

(** A substitution that leaves every text as it is. *)
Definition no_sub (pattern replacement text : string) : string := text.

End Samples.

(* ------------------------------------------------------------------ *)
(** ** Vocabulary of the statements                                    *)
(* ------------------------------------------------------------------ *)

Definition is_st (s : Segment) : bool := segment_name s =? "ST".

(** No segment of the loop carries the name. *)
Definition lacks (loop : list Segment) (name : string) : Prop :=
  forall s, In s loop -> segment_name s <> name.

(** [base ++ "k"] for a one-digit [k], as in [adjustment_amount_3]. *)
Definition suffixed (base : string) (k : nat) : string :=
  base ++ String (ascii_of_nat (48 + k)) "".

(** The k-th (reason, amount, quantity) triple of an adjustment record. *)
Definition cas_triple (d : dict) (k : nat)
  : option pyval * option pyval * option pyval :=
  (dict_get (suffixed "adjustment_reason_cd_" k) d,
   dict_get (suffixed "adjustment_amount_" k) d,
   dict_get (suffixed "adjustment_quantity_" k) d).

(** The k-th (reason code, reference id, amount) group of a provider
    adjustment record. *)
Definition plb_group (d : dict) (k : nat)
  : option pyval * option pyval * option pyval :=
  (dict_get (suffixed "provider_adjustment_reason_cd_" k) d,
   dict_get (suffixed "provider_adjustment_id_" k) d,
   dict_get (suffixed "provider_adjustment_amt_" k) d).

(** The group as read from the segment, and the group marked not present. *)
Definition plb_read (p : Segment) (k : nat)
  : option pyval * option pyval * option pyval :=
  (Some (PStr (element_sub p (2 * k + 1) 0)),
   Some (PStr (element_sub p (2 * k + 1) 1)),
   Some (PStr (element p (2 * k + 2)))).

Definition not_present : option pyval * option pyval * option pyval :=
  (Some PNone, Some PNone, Some PNone).

(** The position of the composite element that opens group [k]: the
    threshold the segment's length is compared with. *)
Definition plb_threshold (k : nat) : Z := Z.of_nat (2 * k + 1).

(** The fixed key sets of the payer and payee records, in the order the
    source writes them, and the keys that hold repeatable groups. *)
Definition payer_keys : list string :=
  ["entity_identifier_code"; "payer_name"; "id_code_qualifier";
   "payer_identifier"; "entity_relationship_code"; "payer_address_line_1";
   "payer_address_line_2"; "payer_city_name"; "payer_state_code";
   "payer_postal_zone_or_zip_code"; "country_code"; "location_qualifier";
   "country_subdivision_code"; "payer_contact_info";
   "payer_additional_identification"].

Definition payee_keys : list string :=
  ["entity_identifier_code"; "payee_name"; "id_code_qualifier";
   "payee_identifier"; "entity_relationship_code"; "payee_address_line_1";
   "payee_address_line_2"; "payee_city_name"; "payee_state_code";
   "payee_postal_zone_or_zip_code"; "country_code"; "location_qualifier";
   "country_subdivision_code"; "payee_additional_identification";
   "delivery_report_transmission_code"; "delivery_name";
   "delivery_communication_number"; "delivery_reference_identifier"].

Definition payer_groups : list string :=
  ["payer_contact_info"; "payer_additional_identification"].

Definition payee_groups : list string := ["payee_additional_identification"].

(** Which segment each plain field of the two records is read from. *)
Definition payer_fields : list (string * string) :=
  [("entity_identifier_code", "N1"); ("payer_name", "N1");
   ("id_code_qualifier", "N1"); ("payer_identifier", "N1");
   ("entity_relationship_code", "N1");
   ("payer_address_line_1", "N3"); ("payer_address_line_2", "N3");
   ("payer_city_name", "N4"); ("payer_state_code", "N4");
   ("payer_postal_zone_or_zip_code", "N4"); ("country_code", "N4");
   ("location_qualifier", "N4"); ("country_subdivision_code", "N4")].

Definition payee_fields : list (string * string) :=
  [("entity_identifier_code", "N1"); ("payee_name", "N1");
   ("id_code_qualifier", "N1"); ("payee_identifier", "N1");
   ("entity_relationship_code", "N1");
   ("payee_address_line_1", "N3"); ("payee_address_line_2", "N3");
   ("payee_city_name", "N4"); ("payee_state_code", "N4");
   ("payee_postal_zone_or_zip_code", "N4"); ("country_code", "N4");
   ("location_qualifier", "N4"); ("country_subdivision_code", "N4");
   ("delivery_report_transmission_code", "RDM"); ("delivery_name", "RDM");
   ("delivery_communication_number", "RDM");
   ("delivery_reference_identifier", "RDM")].

(** The record with every plain field empty and every group an empty
    sequence. *)
Definition defaulted (keys groups : list string) : dict :=
  map (fun k => (k, if existsb (String.eqb k) groups then PList []
                    else PStr ""))
    keys.

Definition to_json_keys : list string :=
  ["payment"; "payer"; "payee"; "claim"; "provider_adjustments";
   "header_info"].

(** Where a claim line's range ends: as the source computes it, and as the
    description of the service-line sequence words it (the next SVC's
    index, or the end of the range; [index_of_segment] already answers the
    length when no SVC follows). *)
Definition line_end_in_code (clm : list Segment) (i : Z) : Z :=
  Z.min (index_of_segment clm "SVC" (i + 1)) (len clm - 1).

Definition line_end_as_described (clm : list Segment) (i : Z) : Z :=
  index_of_segment clm "SVC" (i + 1).

(** The adjustment groups of the CAS segments of a range. *)
Definition adjustments_of (range : list Segment) : list pyval :=
  List.concat (map Remittance.populate_adjustment_groups
            (segments_by_name "CAS" range)).

(** The records of the repeatable groups of a claim, as functions of the
    segment each is read from. *)
Definition contact_record (c : Segment) : pyval :=
  PDict [("contact_function_cd", PStr (element c 1));
         ("contact_name", PStr (element c 2));
         ("communication_number_qualifier1", PStr (element c 3));
         ("contact_communication1", PStr (element c 4));
         ("communication_number_qualifier2", PStr (element c 5));
         ("contact_communication2", PStr (element c 6));
         ("communication_number_qualifier3", PStr (element c 7));
         ("contact_communication3", PStr (element c 8));
         ("contact_inquiry_reference", PStr (element c 9))].

Definition identification_record (x : Segment) : pyval :=
  PDict [("id_qualifier_code", PStr (element x 1));
         ("id", PStr (element x 2));
         ("description", PStr (element x 3))].

Definition amount_record (x : Segment) : pyval :=
  PDict [("amount_qualifier_code", PStr (element x 1));
         ("amt", PStr (element x 2));
         ("credit_debit_flag_code", PStr (element x 3))].

Definition quantity_record (x : Segment) : pyval :=
  PDict [("quantity_qualifier_code", PStr (element x 1));
         ("qty", PStr (element x 2));
         ("composite_unit_of_measure", PStr (element x 3))].

(** The date record read from a DTM segment. *)
Definition date_record (x : Segment) : pyval :=
  PDict [("date_code", PStr (element x 1));
         ("date", PStr (element x 2));
         ("time", PStr (element x 3))].

(** The key sets of the claim record, of a claim line and of an adjustment
    record. *)
Definition claim_keys : list string :=
  ["clp"; "first_nm1_patient"; "claim_names"; "claim_contacts"; "mia"; "moa";
   "claim_related_identifications"; "claim_supplemental_amount";
   "claim_supplemental_quantity"; "claim_adjustments"; "claim_lines";
   "claim_dates"].

Definition claim_line_keys : list string :=
  ["claim_line_details"; "claim_line_dates"; "claim_line_supplemental_amount";
   "claim_line_supplemental_quantity"; "claim_line_remarks";
   "claim_line_adjustments"; "claim_line_related_identifications"].

Definition adjustment_keys : list string :=
  "adjustment_grp_cd"
  :: flat_map (fun k => [suffixed "adjustment_reason_cd_" k;
                         suffixed "adjustment_amount_" k;
                         suffixed "adjustment_quantity_" k])
       [1; 2; 3; 4; 5; 6]%nat.

Definition plb_keys : list string :=
  "provider_identifier" :: "fiscal_period_date"
  :: flat_map (fun k => [suffixed "provider_adjustment_reason_cd_" k;
                         suffixed "provider_adjustment_id_" k;
                         suffixed "provider_adjustment_amt_" k])
       [1; 2; 3; 4; 5; 6]%nat.

(** A value is a record with exactly the given keys, in order. *)
Definition record_with (keys : list string) (v : pyval) : Prop :=
  exists d, v = PDict d /\ dict_keys d = keys.

(** The stop index of the [claim_names] range as the source computes it: the
    position, within [clm_loop[1:]], of the first CLP found there, or the
    length of [clm_loop]. *)
Definition next_clp_offset (clm : list Segment) : Z :=
  hd (len clm)
    (map fst
       (filter (fun iz => snd iz =? "CLP")
          (enumerate
             (map (fun y => segment_name y) (py_slice clm (Some 1%Z) None))))).

(** The four repeatable groups of a claim that are read from a range. *)
Definition pre_svc_groups (range : list Segment) : dict :=
  [("claim_contacts",
    PList (map contact_record (segments_by_name "PER" range)));
   ("claim_related_identifications",
    PList (map identification_record (segments_by_name "REF" range)));
   ("claim_supplemental_amount",
    PList (map amount_record (segments_by_name "AMT" range)));
   ("claim_supplemental_quantity",
    PList (map quantity_record (segments_by_name "QTY" range)))].

(** Every entry of [expected] is bound as given in [d]. *)
Definition binds (d expected : dict) : Prop :=
  Forall (fun kv => dict_get (fst kv) d = Some (snd kv)) expected.

(** The name record read from an NM1 segment. *)
Definition name_record (x : Segment) : pyval :=
  PDict [("entity_identifier_code", PStr (element x 1));
         ("entity_type_qualifier", PStr (element x 2));
         ("last_name_or_organization", PStr (element x 3));
         ("first_name", PStr (element x 4));
         ("middle_name", PStr (element x 5));
         ("name_prefix", PStr (element x 6));
         ("name_suffix", PStr (element x 7));
         ("id_code_qualifier", PStr (element x 8));
         ("identifier", PStr (element x 9));
         ("entity_relationship_code", PStr (element x 10))].

(** The values of a record, in key order, and the values read from
    positions 1 to [n] of a segment. *)
Definition values_of (v : option pyval) : list pyval :=
  match v with
  | Some (PDict d) => map snd d
  | _ => []
  end.

Definition positional (seg : Segment) (n : nat) : list pyval :=
  map (fun k => PStr (element seg k)) (seq 1 n).

(** A value is an empty sequence, or a record whose fields are all the
    empty string. *)
Definition defaulted_value (v : pyval) : Prop :=
  v = PList [] \/ exists d, v = PDict d /\ Forall (fun kv => snd kv = PStr "") d.

(** The segment names [populate_claim_loop] looks for. *)
Definition claim_segment_names : list string :=
  ["CLP"; "NM1"; "PER"; "MIA"; "MOA"; "REF"; "AMT"; "QTY"; "CAS"; "SVC";
   "DTM"].

(** The text after every redaction pattern of the logger has been applied
    in turn, before any truncation. *)
Definition redacted (re_sub : string -> string -> string -> string)
  (patterns : list (string * string)) (text : string) : string :=
  fold_left (fun acc pr => re_sub (fst pr) (snd pr) acc) patterns text.

(** The marker [sanitize] appends to a truncated text. *)
Definition truncation_marker : string := "... [truncated]".

(* ------------------------------------------------------------------ *)
(** ** Segment access                                                  *)
(* ------------------------------------------------------------------ *)

Lemma element_at_beyond (s : Segment) (i : nat) :
  (segment_len s <= Z.of_nat i)%Z -> element_at s i = None.
Proof.
  unfold segment_len, len, element_at. intro H.
  destruct i as [|k]; [reflexivity|].
  apply nth_error_None. lia.
Qed.

Lemma element_empty (i : nat) : element empty i = "".
Proof. destruct i as [|[|k]]; reflexivity. Qed.

Lemma out_of_range_reads_empty (s : Segment) (i : nat) :
  ((segment_len s <= Z.of_nat i)%Z ->
     element s i = "" /\ forall j, element_sub s i j = "")
  /\ (forall j,
        (List.length (split_on (composite_sep (Edi.format_cls s)) (element s i))
         <= j)%nat ->
        element_sub s i j = "").
Proof.
  split.
  - intro H. apply element_at_beyond in H.
    unfold element, element_sub, sub_element_at. rewrite H. simpl. auto.
  - intros j Hj. unfold element, element_sub, sub_element_at in *.
    destruct (element_at s i) as [e|]; simpl; [|reflexivity].
    apply nth_error_None in Hj. rewrite Hj. reflexivity.
Qed.

(** C5. Reading an element at a position at or beyond the segment's length
    (so at every position greater than the number of its elements, and the
    more so greater than its length) gives the empty string, with or without
    a sub-element position, and so does reading a sub-element position beyond
    the pieces of an element; the length is never negative.  The accessors
    are total functions into strings and integers: none of them can raise. *)
Theorem segment_access_defaults_to_empty (s : Segment) (i : nat) :
  ((List.length (elements s) < i)%nat ->
     element s i = "" /\ forall j, element_sub s i j = "")
  /\ ((segment_len s < Z.of_nat i)%Z ->
      element s i = "" /\ forall j, element_sub s i j = "")
  /\ (forall j,
        (List.length (split_on (composite_sep (Edi.format_cls s)) (element s i))
         <= j)%nat ->
        element_sub s i j = "")
  /\ (0 <= segment_len s)%Z.
Proof.
  destruct (out_of_range_reads_empty s i) as [H1 H2].
  split; [|split; [|split; [exact H2|]]].
  - intro H. apply H1. unfold segment_len, len. lia.
  - intro H. apply H1. lia.
  - unfold segment_len, len. lia.
Qed.

Lemma segment_access_defaults_to_empty_witness :
  element Samples.bpr 5 = ""
  /\ element_sub Samples.svc_a 1 2 = ""
  /\ element_sub Samples.svc_a 1 1 = "99213".
Proof.
  split; [|split].
  - apply (proj1 (segment_access_defaults_to_empty Samples.bpr 5)).
    simpl. lia.
  - apply (proj1 (proj2 (proj2
                   (segment_access_defaults_to_empty Samples.svc_a 1)))).
    simpl. lia.
  - reflexivity.
Defined.

(* ------------------------------------------------------------------ *)
(** ** Transaction header                                              *)
(* ------------------------------------------------------------------ *)

Lemma parse_st_loop_find (segments : list Segment) (self : Transaction.t) :
  Transaction.parse_st_loop segments self =
  match find is_st segments with
  | Some st =>
      Transaction.mk (Transaction.data self) (Transaction.format_cls self)
        (Transaction.transaction_type self)
        (Some (element st 1)) (Some (element st 2)) (Some (element st 3))
  | None => self
  end.
Proof.
  induction segments as [|segment rest IH]; simpl; [reflexivity|].
  unfold is_st at 1. destruct (segment_name segment =? "ST"); auto.
Qed.

Lemma find_is_st_none (segments : list Segment) :
  (forall s, In s segments -> segment_name s <> "ST") ->
  find is_st segments = None.
Proof.
  intro H. induction segments as [|x rest IH]; simpl; [reflexivity|].
  unfold is_st at 1.
  destruct (String.eqb_spec (segment_name x) "ST") as [E|_].
  - exfalso. apply (H x); simpl; auto.
  - apply IH. intros s Hs. apply H. simpl; auto.
Qed.

Lemma find_is_st_first (pre post : list Segment) (st : Segment) :
  (forall s, In s pre -> segment_name s <> "ST") ->
  segment_name st = "ST" ->
  find is_st (pre ++ st :: post) = Some st.
Proof.
  intros Hpre Hst. induction pre as [|x pre IH]; simpl.
  - unfold is_st. rewrite Hst. reflexivity.
  - unfold is_st at 1.
    destruct (String.eqb_spec (segment_name x) "ST") as [E|_].
    + exfalso. apply (Hpre x); simpl; auto.
    + apply IH. intros s Hs. apply Hpre. simpl; auto.
Qed.

(** C8. When the segment sequence holds an ST segment, the constructed
    transaction carries elements 1, 2 and 3 of that segment (the one the scan
    finds) as its identifier code, control number and convention reference;
    the segment is a member of the sequence and is named ST. *)
Theorem init_sets_header_from_st
  (segments : list Segment) (delim_cls : Delim) (ty : option string)
  (H : exists s, In s segments /\ segment_name s = "ST") :
  exists st,
    In st segments /\ segment_name st = "ST"
    /\ find is_st segments = Some st
    /\ let trx := Transaction.__init__ segments delim_cls ty in
       Transaction.transaction_set_identifier_code trx = Some (element st 1)
       /\ Transaction.transaction_set_control_number trx = Some (element st 2)
       /\ Transaction.implementation_convention_reference trx
          = Some (element st 3).
Proof.
  destruct H as (s & Hin & Hs).
  destruct (find is_st segments) as [st|] eqn:F.
  - exists st. destruct (find_some _ _ F) as [Hin' Hn].
    unfold is_st in Hn. apply String.eqb_eq in Hn.
    repeat split; auto;
      unfold Transaction.__init__, Transaction._parse_st_segment;
      rewrite parse_st_loop_find; simpl; rewrite F; reflexivity.
  - exfalso. pose proof (find_none _ _ F s Hin) as Hn.
    unfold is_st in Hn. rewrite Hs in Hn. discriminate.
Qed.

Lemma init_sets_header_from_st_witness :
  exists st,
    In st [Samples.st_835; Samples.bpr; Samples.se]
    /\ segment_name st = "ST"
    /\ find is_st [Samples.st_835; Samples.bpr; Samples.se] = Some st
    /\ let trx := Transaction.__init__
                    [Samples.st_835; Samples.bpr; Samples.se]
                    AnsiX12Delim (Some "835") in
       Transaction.transaction_set_identifier_code trx = Some (element st 1)
       /\ Transaction.transaction_set_control_number trx = Some (element st 2)
       /\ Transaction.implementation_convention_reference trx
          = Some (element st 3).
Proof.
  apply (init_sets_header_from_st
           [Samples.st_835; Samples.bpr; Samples.se] AnsiX12Delim (Some "835")).
  exists Samples.st_835. split; [simpl; auto | reflexivity].
Defined.

Example init_reads_835 :
  let trx := Transaction.__init__ [Samples.st_835; Samples.bpr; Samples.se]
               AnsiX12Delim None in
  Transaction.transaction_set_identifier_code trx = Some "835"
  /\ Transaction.transaction_set_control_number trx = Some "0001"
  /\ Transaction.implementation_convention_reference trx
     = Some "005010X221A1".
Proof. repeat split. Qed.

(** C10. Without any ST segment the constructor returns a transaction whose
    three header fields are still None; with one or more, the fields come
    from the first ST in document order, whatever precedes or follows it. *)
Theorem init_without_st_and_first_st :
  (forall segments delim_cls ty,
      (forall s, In s segments -> segment_name s <> "ST") ->
      Transaction.__init__ segments delim_cls ty
      = Transaction.mk segments delim_cls ty None None None)
  /\ (forall pre st post delim_cls ty,
         (forall s, In s pre -> segment_name s <> "ST") ->
         segment_name st = "ST" ->
         Transaction.__init__ (pre ++ st :: post) delim_cls ty
         = Transaction.mk (pre ++ st :: post) delim_cls ty
             (Some (element st 1)) (Some (element st 2))
             (Some (element st 3))).
Proof.
  split.
  - intros segments delim_cls ty H.
    unfold Transaction.__init__, Transaction._parse_st_segment.
    rewrite parse_st_loop_find. simpl.
    rewrite find_is_st_none by assumption. reflexivity.
  - intros pre st post delim_cls ty Hpre Hst.
    unfold Transaction.__init__, Transaction._parse_st_segment.
    rewrite parse_st_loop_find. simpl.
    rewrite find_is_st_first by assumption. reflexivity.
Qed.

Lemma init_without_st_and_first_st_witness :
  Transaction.__init__ [Samples.bpr; Samples.se] AnsiX12Delim None
  = Transaction.mk [Samples.bpr; Samples.se] AnsiX12Delim None None None None
  /\ Transaction.transaction_set_identifier_code
       (Transaction.__init__
          ([Samples.bpr] ++ Samples.st_837 :: [Samples.st_835; Samples.se])
          AnsiX12Delim None)
     = Some "837".
Proof.
  split.
  - apply (proj1 init_without_st_and_first_st).
    intros s [E|[E|[]]]; subst s; discriminate.
  - rewrite (proj2 init_without_st_and_first_st
               [Samples.bpr] Samples.st_837 [Samples.st_835; Samples.se]).
    + reflexivity.
    + intros s [E|[]]; subst s; discriminate.
    + reflexivity.
Defined.

(* ------------------------------------------------------------------ *)
(** ** Repeating groups: CAS and PLB                                   *)
(* ------------------------------------------------------------------ *)

(** C2. An adjustment record always has the group code from element 1 and all
    six triples, read from elements (2,3,4), (5,6,7), ..., (17,18,19): one
    record of 19 entries, none left out.  When the segment stops after the
    first triple (it has no element beyond the fourth), triples 2 to 6 are
    three empty strings each. *)
Theorem adjustment_groups_six_triples (cas : Segment) :
  exists d,
    Remittance.populate_adjustment_groups cas = [PDict d]
    /\ List.length d = 19%nat
    /\ dict_get "adjustment_grp_cd" d = Some (PStr (element cas 1))
    /\ Forall (fun k =>
                 cas_triple d k
                 = (Some (PStr (element cas (3 * k - 1))),
                    Some (PStr (element cas (3 * k))),
                    Some (PStr (element cas (3 * k + 1)))))
         [1; 2; 3; 4; 5; 6]%nat
    /\ ((List.length (elements cas) <= 4)%nat ->
        Forall (fun k =>
                  cas_triple d k
                  = (Some (PStr ""), Some (PStr ""), Some (PStr "")))
          [2; 3; 4; 5; 6]%nat).
Proof.
  eexists. split; [reflexivity|].
  split; [reflexivity|]. split; [reflexivity|]. split.
  - repeat constructor.
  - intro H.
    assert (E : forall i, (5 <= i)%nat -> element cas i = "").
    { intros i Hi.
      apply (proj1 (out_of_range_reads_empty cas i)).
      unfold segment_len, len. lia. }
    repeat constructor; unfold cas_triple; simpl;
      rewrite !E by lia; reflexivity.
Qed.

Lemma populate_plb_loop_nth (self : Remittance.loops) (n : nat) (p : Segment) :
  nth_error (segments_by_name "PLB" (Remittance.trx_summary_loop self)) n
  = Some p ->
  exists d,
    nth_error (Remittance.populate_plb_loop self) n = Some d
    /\ dict_get "provider_identifier" d = Some (PStr (element p 1))
    /\ dict_get "fiscal_period_date" d = Some (PStr (element p 2))
    /\ Forall (fun k =>
                 plb_group d k
                 = (Some (if (segment_len p >? plb_threshold k)%Z
                          then PStr (element_sub p (2 * k + 1) 0) else PNone),
                    Some (if (segment_len p >? plb_threshold k)%Z
                          then PStr (element_sub p (2 * k + 1) 1) else PNone),
                    Some (if (segment_len p >? plb_threshold k + 1)%Z
                          then PStr (element p (2 * k + 2)) else PNone)))
         [1; 2; 3; 4; 5; 6]%nat.
Proof.
  intro H. unfold Remittance.populate_plb_loop, reduce1. simpl fold_left.
  rewrite app_nil_r. eexists. split.
  - apply map_nth_error. exact H.
  - split; [reflexivity|]. split; [reflexivity|].
    repeat constructor.
Qed.

Lemma populate_plb_loop_length (self : Remittance.loops) :
  List.length (Remittance.populate_plb_loop self)
  = List.length (segments_by_name "PLB" (Remittance.trx_summary_loop self)).
Proof.
  unfold Remittance.populate_plb_loop, reduce1. simpl fold_left.
  rewrite app_nil_r. apply length_map.
Qed.

(** C3. Each PLB segment of the summary range gives one record.  In it a
    group is read from the segment only when the segment's length exceeds
    the group's threshold (the position of its composite element), and is
    three times None, never the empty string, when it does not.  The amount
    sits one position further, so at a length of exactly threshold + 1 the
    reason code and the id are read and the amount is None.  At length 7,
    long enough for two groups and no more, groups 1 and 2 are read and
    groups 3 to 6 are None throughout. *)
Theorem plb_groups_follow_segment_length
  (self : Remittance.loops) (n : nat) (p : Segment)
  (H : nth_error (segments_by_name "PLB" (Remittance.trx_summary_loop self)) n
       = Some p) :
  exists d,
    nth_error (Remittance.populate_plb_loop self) n = Some d
    /\ Forall (fun k =>
                 ((segment_len p <= plb_threshold k)%Z ->
                    plb_group d k = not_present)
                 /\ (plb_group d k <> not_present ->
                       (segment_len p > plb_threshold k)%Z)
                 /\ ((segment_len p > plb_threshold k + 1)%Z ->
                       plb_group d k = plb_read p k)
                 /\ ((segment_len p = plb_threshold k + 1)%Z ->
                       plb_group d k
                       = (Some (PStr (element_sub p (2 * k + 1) 0)),
                          Some (PStr (element_sub p (2 * k + 1) 1)),
                          Some PNone))
                 /\ (forall f, In f [fst (fst (plb_group d k));
                                     snd (fst (plb_group d k));
                                     snd (plb_group d k)] ->
                      (segment_len p <= plb_threshold k)%Z ->
                      f = Some PNone /\ f <> Some (PStr "")))
         [1; 2; 3; 4; 5; 6]%nat
    /\ ((segment_len p = 7)%Z ->
        Forall (fun k => plb_group d k = plb_read p k) [1; 2]%nat
        /\ Forall (fun k => plb_group d k = not_present) [3; 4; 5; 6]%nat).
Proof.
  destruct (populate_plb_loop_nth self n H) as (d & Hd & _ & _ & G).
  exists d. split; [exact Hd|].
  assert (K : forall k, In k [1; 2; 3; 4; 5; 6]%nat ->
                plb_group d k
                = (Some (if (segment_len p >? plb_threshold k)%Z
                         then PStr (element_sub p (2 * k + 1) 0) else PNone),
                   Some (if (segment_len p >? plb_threshold k)%Z
                         then PStr (element_sub p (2 * k + 1) 1) else PNone),
                   Some (if (segment_len p >? plb_threshold k + 1)%Z
                         then PStr (element p (2 * k + 2)) else PNone))).
  { apply Forall_forall. exact G. }
  split.
  - apply Forall_forall. intros k Hk. rewrite (K k Hk).
    unfold not_present, plb_read.
    destruct (Z.gtb_spec (segment_len p) (plb_threshold k)) as [A|A];
      destruct (Z.gtb_spec (segment_len p) (plb_threshold k + 1)) as [B|B];
      repeat split; intros; try lia; try reflexivity; try congruence;
      simpl in *; intuition (subst; congruence).
  - intro L. split; apply Forall_forall; intros k Hk; rewrite K;
      try (simpl in Hk |- *; tauto);
      unfold not_present, plb_read;
      destruct (Z.gtb_spec (segment_len p) (plb_threshold k)) as [A|A];
      destruct (Z.gtb_spec (segment_len p) (plb_threshold k + 1)) as [B|B];
      try reflexivity; exfalso;
      simpl in Hk; unfold plb_threshold in *; lia.
Qed.

Lemma plb_groups_follow_segment_length_witness :
  exists d,
    nth_error
      (Remittance.populate_plb_loop
         (Remittance.mkLoops [] [] [] [] [Samples.bpr; Samples.plb_two] []))
      0
    = Some d
    /\ plb_group d 2
       = (Some (PStr "72"), Some (PStr "CTL2"), Some (PStr "-5.00"))
    /\ plb_group d 3 = (Some PNone, Some PNone, Some PNone).
Proof.
  destruct (@plb_groups_follow_segment_length
              (Remittance.mkLoops [] [] [] [] [Samples.bpr; Samples.plb_two] [])
              0 Samples.plb_two eq_refl)
    as (d & Hd & _ & L).
  exists d. split; [exact Hd|].
  destruct (L eq_refl) as [A B].
  split.
  - exact (proj1 (Forall_forall _ _) A 2%nat (or_intror (or_introl eq_refl))).
  - exact (proj1 (Forall_forall _ _) B 3%nat (or_introl eq_refl)).
Defined.

(* ------------------------------------------------------------------ *)
(** ** Claim lines                                                     *)
(* ------------------------------------------------------------------ *)

(** C9. In a claim line the supplemental quantity list is built from the AMT
    segments of the line's range, the very segments the supplemental amount
    list is built from: both lists have one record per such segment, and the
    n-th quantity record's [qty] is element 2 of the n-th AMT segment. *)
Theorem line_quantities_come_from_amt
  (self : Remittance.loops) (svc : Segment) (idx svc_end_idx : Z) :
  let line := Remittance.populate_claim_line self svc idx svc_end_idx in
  let amts :=
    segments_by_name "AMT"
      (py_slice (Remittance.clm_loop self) (Some idx) (Some svc_end_idx)) in
  exists quantities amounts,
    dict_get "claim_line_supplemental_quantity" line = Some (PList quantities)
    /\ dict_get "claim_line_supplemental_amount" line = Some (PList amounts)
    /\ List.length quantities = List.length amts
    /\ List.length amounts = List.length amts
    /\ (forall n a,
          nth_error amts n = Some a ->
          exists q m,
            nth_error quantities n = Some (PDict q)
            /\ dict_get "qty" q = Some (PStr (element a 2))
            /\ nth_error amounts n = Some (PDict m)
            /\ dict_get "amt" m = Some (PStr (element a 2))).
Proof.
  intros line amts. eexists. eexists.
  split; [reflexivity|]. split; [reflexivity|].
  fold amts. rewrite !length_map.
  split; [reflexivity|]. split; [reflexivity|].
  intros n a Hn. eexists. eexists.
  split; [erewrite map_nth_error by exact Hn; reflexivity|].
  split; [reflexivity|].
  split; [erewrite map_nth_error by exact Hn; reflexivity|].
  reflexivity.
Qed.

Example line_quantities_on_a_line :
  let self := Samples.only_clm
                [Samples.clp; Samples.svc_a; Samples.dtm_a; Samples.amt_a;
                 Samples.svc_b] in
  let line := Remittance.populate_claim_line self Samples.svc_a 1 4 in
  dict_get "claim_line_supplemental_quantity" line
  = Some (PList [PDict [("quantity_qualifier", PStr "B6");
                        ("qty", PStr "90.00");
                        ("composite_unit_of_measure", PStr "")]])
  /\ dict_get "claim_line_supplemental_amount" line
     = Some (PList [PDict [("amt_qualifier_cd", PStr "B6");
                           ("amt", PStr "90.00");
                           ("credit_debit_flag_code", PStr "")]]).
Proof. split; reflexivity. Qed.

(* ------------------------------------------------------------------ *)
(** ** The navigator on absent segments                                *)
(* ------------------------------------------------------------------ *)

Lemma in_enumerate_from {A} (l : list A) (n : Z) (p : Z * A) :
  In p (enumerate_from n l) ->
  In (snd p) l /\ (n <= fst p < n + len l)%Z.
Proof.
  revert n. unfold len.
  induction l as [|x rest IH]; simpl; intros n H; [contradiction|].
  destruct H as [E|H].
  - subst p. simpl. split; [auto|lia].
  - destruct (IH _ H) as [I B]. split; [auto|lia].
Qed.

Lemma find_named_lacking (loop : list Segment) (name : string) (start n : Z) :
  lacks loop name ->
  find (fun p => named name (snd p) && (start <=? fst p)%Z)
       (enumerate_from n loop) = None.
Proof.
  intro H. revert n.
  induction loop as [|x rest IH]; simpl; intro n; [reflexivity|].
  unfold named at 1.
  destruct (String.eqb_spec (segment_name x) name) as [E|_].
  - exfalso. apply (H x); simpl; auto.
  - simpl. apply IH. intros s Hs. apply H. simpl; auto.
Qed.

Lemma first_lacking (loop : list Segment) (name : string) (start : Z) :
  lacks loop name -> _first loop name start = empty.
Proof.
  intro H. unfold _first, enumerate.
  rewrite find_named_lacking by exact H. reflexivity.
Qed.

Lemma index_of_segment_lacking (loop : list Segment) (name : string)
  (start : Z) :
  lacks loop name -> index_of_segment loop name start = len loop.
Proof.
  intro H. unfold index_of_segment, enumerate.
  rewrite find_named_lacking by exact H. reflexivity.
Qed.

Lemma segments_by_name_lacking (loop : list Segment) (name : string) :
  lacks loop name -> segments_by_name name loop = [].
Proof.
  intro H. unfold segments_by_name.
  induction loop as [|x rest IH]; simpl; [reflexivity|].
  unfold named at 1.
  destruct (String.eqb_spec (segment_name x) name) as [E|_].
  - exfalso. apply (H x); simpl; auto.
  - apply IH. intros s Hs. apply H. simpl; auto.
Qed.

Lemma index_of_segment_bounds (loop : list Segment) (name : string)
  (start : Z) :
  (0 <= index_of_segment loop name start <= len loop)%Z.
Proof.
  unfold index_of_segment, enumerate.
  destruct (find _ _) as [p|] eqn:F.
  - apply find_some in F. destruct F as [I _].
    apply in_enumerate_from in I. lia.
  - unfold len. lia.
Qed.

Ltac field_by_sentinel H :=
  simpl; rewrite (first_lacking _ H); rewrite element_empty; reflexivity.

(** C6. The payer and payee records always have their full key sets.  When
    the loop holds no segment of some name, every field read from that
    segment is the empty string, and a repeatable group whose segment is
    missing is an empty sequence; an empty loop gives the record with every
    field empty and every group an empty sequence. *)
Theorem payer_payee_defaults (self : Remittance.loops) :
  let payer := Remittance.populate_payer_loop self in
  let payee := Remittance.populate_payee_loop self in
  (dict_keys payer = payer_keys /\ dict_keys payee = payee_keys)
  /\ (forall name,
         lacks (Remittance.payer_loop self) name ->
         Forall (fun f => snd f = name ->
                          dict_get (fst f) payer = Some (PStr ""))
           payer_fields)
  /\ (forall name,
         lacks (Remittance.payee_loop self) name ->
         Forall (fun f => snd f = name ->
                          dict_get (fst f) payee = Some (PStr ""))
           payee_fields)
  /\ (lacks (Remittance.payer_loop self) "PER" ->
      dict_get "payer_contact_info" payer = Some (PList []))
  /\ (lacks (Remittance.payer_loop self) "REF" ->
      dict_get "payer_additional_identification" payer = Some (PList []))
  /\ (lacks (Remittance.payee_loop self) "REF" ->
      dict_get "payee_additional_identification" payee = Some (PList []))
  /\ (Remittance.payer_loop self = [] ->
      payer = defaulted payer_keys payer_groups)
  /\ (Remittance.payee_loop self = [] ->
      payee = defaulted payee_keys payee_groups).
Proof.
  intros payer payee.
  split; [split; reflexivity|].
  split; [|split].
  - intros name H. unfold payer_fields.
    repeat (apply Forall_cons; [intro E; simpl in E; subst name;
                                field_by_sentinel H|]).
    apply Forall_nil.
  - intros name H. unfold payee_fields.
    repeat (apply Forall_cons; [intro E; simpl in E; subst name;
                                field_by_sentinel H|]).
    apply Forall_nil.
  - split; [|split; [|split; [|split]]].
    + intro H. simpl. rewrite (segments_by_name_lacking H). reflexivity.
    + intro H. simpl. rewrite (segments_by_name_lacking H). reflexivity.
    + intro H. simpl. rewrite (segments_by_name_lacking H). reflexivity.
    + intro H. unfold payer, Remittance.populate_payer_loop.
      rewrite H. reflexivity.
    + intro H. unfold payee, Remittance.populate_payee_loop.
      rewrite H. reflexivity.
Qed.

Lemma payer_payee_defaults_witness :
  let self := Remittance.mkLoops [] [Samples.per_a] [] [] [] [] in
  dict_get "payer_name" (Remittance.populate_payer_loop self)
  = Some (PStr "")
  /\ dict_get "payer_additional_identification"
       (Remittance.populate_payer_loop self)
     = Some (PList [])
  /\ Remittance.populate_payee_loop self = defaulted payee_keys payee_groups.
Proof.
  intro self.
  pose proof (payer_payee_defaults self) as (_ & F & _ & _ & R & _ & _ & E).
  assert (L : forall name, name <> "PER" ->
                           lacks (Remittance.payer_loop self) name).
  { intros name N s [I|[]] C. subst s. apply N. symmetry. exact C. }
  split; [|split].
  - refine (proj1 (Forall_forall _ _) (F "N1" (L "N1" _))
              ("payer_name", "N1") _ eq_refl).
    + discriminate.
    + simpl. auto.
  - apply R. apply L. discriminate.
  - apply E. reflexivity.
Defined.

(* ------------------------------------------------------------------ *)
(** ** Construction and [to_json]                                      *)
(* ------------------------------------------------------------------ *)

(** Neither the subscript nor [min] in [populate_claim_loop] can fail: the
    subscripted list ends with the loop's length, and the first candidate of
    [min] is an index of the loop, hence kept by the filter. *)
Lemma populate_claim_loop_returns (self : Remittance.loops) :
  exists d, Remittance.populate_claim_loop self = Some d.
Proof.
  unfold Remittance.populate_claim_loop.
  destruct (map fst _) as [|e rest]; simpl app; unfold py_getitem;
    simpl nth_error; unfold bind at 1;
    (destruct (index_of_segment_bounds (Remittance.clm_loop self) "SVC" 0)
      as [B _];
     simpl filter;
     destruct (Z.geb_spec (index_of_segment (Remittance.clm_loop self) "SVC" 0)
                 0) as [_|C]; [|lia];
     unfold py_min, bind; eexists; reflexivity).
Qed.

Lemma dict_get_in_keys (k : string) (d : dict) :
  dict_get k d <> None <-> In k (dict_keys d).
Proof.
  induction d as [|[k' v] rest IH]; simpl.
  - tauto.
  - destruct (String.eqb_spec k' k) as [E|N].
    + split; [auto|discriminate].
    + rewrite IH. split; [auto|]. intros [E|I]; [contradiction|exact I].
Qed.

Lemma to_json_keys_of (r : Remittance.t) :
  dict_keys (Remittance.to_json r) = to_json_keys.
Proof. reflexivity. Qed.

(** C4. Whatever the six loops hold, constructing the remittance succeeds and
    [to_json] of it has exactly the six keys payment, payer, payee, claim,
    provider_adjustments and header_info, each once, bound to the records
    the construction computed. *)
Theorem to_json_has_the_six_keys
  (trx_header_loop payer_loop payee_loop clm_loop trx_summary_loop
     header_number_loop : list Segment) :
  exists r,
    Remittance.__init__ trx_header_loop payer_loop payee_loop clm_loop
      trx_summary_loop header_number_loop = Some r
    /\ dict_keys (Remittance.to_json r) = to_json_keys
    /\ Remittance.to_json r
       = [("payment", PDict (Remittance.trx_header_info r));
          ("payer", PDict (Remittance.payer_info r));
          ("payee", PDict (Remittance.payee_info r));
          ("claim", PDict (Remittance.clm_info r));
          ("provider_adjustments",
           PList (map PDict (Remittance.plb_info r)));
          ("header_info", PDict (Remittance.header_info r))]
    /\ forall k, In k to_json_keys <->
                 dict_get k (Remittance.to_json r) <> None.
Proof.
  unfold Remittance.__init__, Remittance.build.
  destruct (populate_claim_loop_returns
              (Remittance.mkLoops trx_header_loop payer_loop payee_loop
                 clm_loop trx_summary_loop header_number_loop)) as [d Hd].
  rewrite Hd. unfold bind. eexists. split; [reflexivity|].
  split; [reflexivity|]. split; [reflexivity|].
  intro k. rewrite dict_get_in_keys. reflexivity.
Qed.

(* ------------------------------------------------------------------ *)
(** ** The claim loop: service lines and claim-level adjustments       *)
(* ------------------------------------------------------------------ *)

Lemma reduce_app_concat {A} (ls : list (list A)) (init : list A) :
  reduce (fun x y => x ++ y) ls init = init ++ List.concat ls.
Proof.
  unfold reduce. revert init.
  induction ls as [|l ls IH]; simpl; intro init.
  - symmetry. apply app_nil_r.
  - rewrite IH. symmetry. apply app_assoc.
Qed.

Lemma enumerate_from_filter_snd {A} (f : A -> bool) (l : list A) (n : Z) :
  map snd (filter (fun p => f (snd p)) (enumerate_from n l)) = filter f l.
Proof.
  revert n. induction l as [|x rest IH]; simpl; intro n; [reflexivity|].
  destruct (f x); simpl; rewrite IH; reflexivity.
Qed.

Lemma py_min_candidates (io n : Z) :
  (0 <= io)%Z ->
  py_min (filter (fun x => (x >=? 0)%Z) [io; (n - 1)%Z])
  = Some (if (n - 1 >=? 0)%Z then Z.min io (n - 1) else io).
Proof.
  intro H. simpl.
  destruct (Z.geb_spec io 0) as [_|C]; [|lia].
  destruct (n - 1 >=? 0)%Z; reflexivity.
Qed.

Lemma populate_claim_loop_binds (self : Remittance.loops) (d : dict) :
  Remittance.populate_claim_loop self = Some d ->
  let clm := Remittance.clm_loop self in
  dict_get "claim_lines" d
  = Some (PList
            (map (fun i_seg =>
                    PDict (Remittance.populate_claim_line self (snd i_seg)
                             (fst i_seg) (line_end_in_code clm (fst i_seg))))
               (segments_by_name_index "SVC" clm)))
  /\ dict_get "claim_adjustments" d
     = Some (PList
               (adjustments_of
                  (py_slice clm (Some 1%Z)
                     (Some (if (len clm - 1 >=? 0)%Z
                            then Z.min (index_of_segment clm "SVC" 0)
                                   (len clm - 1)
                            else index_of_segment clm "SVC" 0))))).
Proof.
  intros H clm. unfold Remittance.populate_claim_loop in H.
  rewrite py_min_candidates in H
    by apply (index_of_segment_bounds (Remittance.clm_loop self) "SVC" 0).
  fold clm in H.
  destruct (map fst _) as [|e rest] in H; simpl app in H;
    unfold py_getitem in H; simpl nth_error in H; unfold bind in H;
    injection H as H; subst d;
    (split; [reflexivity|]);
    cbn [dict_get String.eqb Ascii.eqb Bool.eqb];
    rewrite reduce_app_concat; reflexivity.
Qed.

Lemma in_enumerate_from_nth {A} (l : list A) (n : Z) (p : Z * A) :
  In p (enumerate_from n l) ->
  nth_error l (Z.to_nat (fst p - n)) = Some (snd p).
Proof.
  revert n. induction l as [|x rest IH]; simpl; intros n H; [contradiction|].
  destruct H as [E|H].
  - subst p. simpl. replace (n - n)%Z with 0%Z by lia. reflexivity.
  - pose proof (in_enumerate_from _ _ _ H) as [_ B].
    specialize (IH _ H).
    replace (Z.to_nat (fst p - n)) with (S (Z.to_nat (fst p - (n + 1))))
      by lia.
    exact IH.
Qed.

Lemma line_end_in_code_cases (clm : list Segment) (i : Z) :
  line_end_in_code clm i
  = if (line_end_as_described clm i <? len clm)%Z
    then line_end_as_described clm i
    else (len clm - 1)%Z.
Proof.
  unfold line_end_in_code, line_end_as_described.
  pose proof (index_of_segment_bounds clm "SVC" (i + 1)) as B.
  destruct (Z.ltb_spec (index_of_segment clm "SVC" (i + 1)) (len clm)); lia.
Qed.

(** What [populate_claim_loop] does for service lines, on every claim loop:
    one record per SVC segment, in document order; the record of the SVC at
    index [i] is projected with the end index [line_end_in_code], which is
    the next SVC's index when one follows and [len - 1] when none does. *)
Lemma claim_lines_one_per_svc (self : Remittance.loops) (d : dict) :
  Remittance.populate_claim_loop self = Some d ->
  let clm := Remittance.clm_loop self in
  exists lines,
    dict_get "claim_lines" d = Some (PList lines)
    /\ List.length lines = List.length (segments_by_name "SVC" clm)
    /\ map snd (segments_by_name_index "SVC" clm) = segments_by_name "SVC" clm
    /\ forall n i seg,
         nth_error (segments_by_name_index "SVC" clm) n = Some (i, seg) ->
         nth_error clm (Z.to_nat i) = Some seg
         /\ segment_name seg = "SVC"
         /\ nth_error lines n
            = Some (PDict (Remittance.populate_claim_line self seg i
                             (line_end_in_code clm i)))
         /\ line_end_in_code clm i
            = if (line_end_as_described clm i <? len clm)%Z
              then line_end_as_described clm i
              else (len clm - 1)%Z.
Proof.
  intros H clm. destruct (populate_claim_loop_binds self H) as [L _].
  fold clm in L. eexists. split; [exact L|].
  assert (S : map snd (segments_by_name_index "SVC" clm)
              = segments_by_name "SVC" clm).
  { unfold segments_by_name_index, segments_by_name, enumerate.
    apply (enumerate_from_filter_snd (named "SVC")). }
  split; [rewrite length_map, <- S, length_map; reflexivity|].
  split; [exact S|].
  intros n i seg Hn.
  pose proof (nth_error_In _ _ Hn) as I.
  unfold segments_by_name_index in I. apply filter_In in I.
  destruct I as [I N]. simpl in N.
  apply in_enumerate_from_nth in I. simpl in I.
  replace (i - 0)%Z with i in I by lia.
  split; [exact I|]. split; [apply String.eqb_eq; exact N|].
  split; [|apply line_end_in_code_cases].
  erewrite map_nth_error by exact Hn. reflexivity.
Qed.

(** What [populate_claim_loop] does for claim-level adjustments, on every
    non-empty claim loop: the groups of the CAS segments of
    [clm_loop[1 : min(first SVC, len - 1)]]. *)
Lemma claim_adjustments_range (self : Remittance.loops) (d : dict) :
  Remittance.populate_claim_loop self = Some d ->
  let clm := Remittance.clm_loop self in
  clm <> [] ->
  dict_get "claim_adjustments" d
  = Some (PList
            (adjustments_of
               (py_slice clm (Some 1%Z)
                  (Some (Z.min (index_of_segment clm "SVC" 0)
                           (len clm - 1)))))).
Proof.
  intros H clm NE. destruct (populate_claim_loop_binds self H) as [_ A].
  fold clm in A. rewrite A.
  destruct (Z.geb_spec (len clm - 1) 0) as [_|C]; [reflexivity|].
  exfalso. unfold clm in *. destruct (Remittance.clm_loop self); [congruence|].
  unfold len in C. cbn [List.length] in C. lia.
Qed.

(** C1, at a claim loop CLP, SVC, SVC, CAS.  One record per SVC, in source
    order, and the first line ends at the second SVC; the second and last
    line is projected with end index [len - 1 = 3], not the range end 4, so
    the final CAS segment, which lies within the line's described range,
    is missing from its adjustments. *)
Theorem claim_lines_last_line_stops_one_short :
  let clm := [Samples.clp; Samples.svc_a; Samples.svc_b; Samples.cas_line] in
  let self := Samples.only_clm clm in
  exists d,
    Remittance.populate_claim_loop self = Some d
    /\ dict_get "claim_lines" d
       = Some (PList
                 [PDict (Remittance.populate_claim_line self Samples.svc_a 1 2);
                  PDict (Remittance.populate_claim_line self Samples.svc_b 2 3)])
    /\ line_end_in_code clm 1 = line_end_as_described clm 1
    /\ line_end_in_code clm 2 = 3%Z
    /\ line_end_as_described clm 2 = 4%Z
    /\ dict_get "claim_line_adjustments"
         (Remittance.populate_claim_line self Samples.svc_b 2
            (line_end_in_code clm 2))
       = Some (PList [])
    /\ dict_get "claim_line_adjustments"
         (Remittance.populate_claim_line self Samples.svc_b 2
            (line_end_as_described clm 2))
       = Some (PList (Remittance.populate_adjustment_groups Samples.cas_line)).
Proof.
  intros clm self. eexists. split; [reflexivity|].
  repeat split.
Qed.

(** C7, at a claim loop CLP, CAS without any SVC.  The search index falls
    back to the sequence length 2, yet the slice ends at
    [min(2, len - 1) = 1], so the CAS segment after the leading CLP
    contributes nothing to [claim_adjustments]. *)
Theorem claim_adjustments_skip_final_segment :
  let clm := [Samples.clp; Samples.cas_line] in
  let self := Samples.only_clm clm in
  exists d,
    Remittance.populate_claim_loop self = Some d
    /\ lacks clm "SVC"
    /\ index_of_segment clm "SVC" 0 = len clm
    /\ segments_by_name "CAS" (py_slice clm (Some 1%Z) None)
       = [Samples.cas_line]
    /\ dict_get "claim_adjustments" d = Some (PList [])
    /\ adjustments_of (py_slice clm (Some 1%Z) (Some (len clm)))
       = Remittance.populate_adjustment_groups Samples.cas_line.
Proof.
  intros clm self. eexists. split; [reflexivity|].
  split.
  - intros s [E|[E|[]]]; subst s; discriminate.
  - repeat split.
Qed.

(* ------------------------------------------------------------------ *)
(** ** Worked instances                                                *)
(* ------------------------------------------------------------------ *)

Lemma adjustment_groups_six_triples_witness :
  exists d,
    Remittance.populate_adjustment_groups Samples.cas_one = [PDict d]
    /\ cas_triple d 1 = (Some (PStr "45"), Some (PStr "10.00"), Some (PStr "1"))
    /\ Forall (fun k =>
                 cas_triple d k
                 = (Some (PStr ""), Some (PStr ""), Some (PStr "")))
         [2; 3; 4; 5; 6]%nat.
Proof.
  destruct (adjustment_groups_six_triples Samples.cas_one)
    as (d & E & _ & _ & T & R).
  exists d. split; [exact E|]. split.
  - exact (proj1 (Forall_forall _ _) T 1%nat (or_introl eq_refl)).
  - apply R. simpl. lia.
Defined.

(** C6, as worded: a payer loop without N1, N3, N4 and RDM whose contact
    group is not an empty sequence, because the loop does hold a PER
    segment. *)
Lemma contact_group_survives_missing_n1 :
  let self := Remittance.mkLoops [] [Samples.per_a] [] [] [] [] in
  (lacks (Remittance.payer_loop self) "N1"
   /\ lacks (Remittance.payer_loop self) "N3"
   /\ lacks (Remittance.payer_loop self) "N4"
   /\ lacks (Remittance.payer_loop self) "RDM")
  /\ dict_get "payer_contact_info" (Remittance.populate_payer_loop self)
     = Some (PList
               [PDict [("contact_function_cd", PStr "CX");
                       ("contact_name", PStr "HELP DESK");
                       ("communication_number_qualifier1", PStr "TE");
                       ("contact_communication1", PStr "8005551212");
                       ("communication_number_qualifier2", PStr "");
                       ("contact_communication2", PStr "");
                       ("communication_number_qualifier3", PStr "");
                       ("contact_communication3", PStr "");
                       ("contact_inquiry_reference", PStr "")]])
  /\ dict_get "payer_contact_info" (Remittance.populate_payer_loop self)
     <> Some (PList []).
Proof.
  intro self.
  assert (L : forall name, name <> "PER" ->
                           lacks (Remittance.payer_loop self) name).
  { intros name N s [I|[]] C. subst s. apply N. symmetry. exact C. }
  split; [|split].
  - repeat split; apply L; discriminate.
  - reflexivity.
  - discriminate.
Qed.

Lemma claim_lines_one_per_svc_witness :
  let clm := [Samples.clp; Samples.svc_a; Samples.dtm_a; Samples.svc_b;
              Samples.cas_line; Samples.amt_a] in
  exists d lines,
    Remittance.populate_claim_loop (Samples.only_clm clm) = Some d
    /\ dict_get "claim_lines" d = Some (PList lines)
    /\ List.length lines = 2%nat
    /\ nth_error lines 0
       = Some (PDict (Remittance.populate_claim_line (Samples.only_clm clm)
                        Samples.svc_a 1 3))
    /\ nth_error lines 1
       = Some (PDict (Remittance.populate_claim_line (Samples.only_clm clm)
                        Samples.svc_b 3 5)).
Proof.
  intro clm.
  destruct (populate_claim_loop_returns (Samples.only_clm clm)) as [d Hd].
  destruct (@claim_lines_one_per_svc (Samples.only_clm clm) d Hd)
    as (lines & L & N & _ & P).
  exists d, lines. split; [exact Hd|]. split; [exact L|].
  split; [exact N|]. split.
  - exact (proj1 (proj2 (proj2 (P 0%nat 1%Z Samples.svc_a eq_refl)))).
  - exact (proj1 (proj2 (proj2 (P 1%nat 3%Z Samples.svc_b eq_refl)))).
Defined.

Lemma claim_adjustments_range_witness :
  let clm := [Samples.clp; Samples.cas_line; Samples.svc_a; Samples.cas_one] in
  exists d,
    Remittance.populate_claim_loop (Samples.only_clm clm) = Some d
    /\ dict_get "claim_adjustments" d
       = Some (PList (adjustments_of [Samples.cas_line])).
Proof.
  intro clm.
  destruct (populate_claim_loop_returns (Samples.only_clm clm)) as [d Hd].
  exists d. split; [exact Hd|].
  apply (@claim_adjustments_range (Samples.only_clm clm) d Hd).
  discriminate.
Defined.

(* ------------------------------------------------------------------ *)
(** ** The helpers on small inputs                                     *)
(* ------------------------------------------------------------------ *)

Example py_slice_negative_stop :
  py_slice [1; 2; 3; 4]%nat (Some 1%Z) (Some (-1)%Z) = [2; 3]%nat.
Proof. reflexivity. Qed.

Example py_slice_crossed_bounds :
  py_slice [1; 2; 3; 4]%nat (Some 2%Z) (Some 1%Z) = [].
Proof. reflexivity. Qed.

Example py_slice_stop_past_end :
  py_slice [1; 2; 3; 4]%nat None (Some 10%Z) = [1; 2; 3; 4]%nat.
Proof. reflexivity. Qed.

Example split_on_composite : split_on ":" "HC:99213" = ["HC"; "99213"].
Proof. reflexivity. Qed.

Example split_on_nothing : split_on ":" "" = [""].
Proof. reflexivity. Qed.

Example dict_update_overrides :
  dict_update [("a", PStr "1"); ("b", PStr "2")]
              [("b", PNone); ("c", PStr "3")]
  = [("a", PStr "1"); ("b", PNone); ("c", PStr "3")].
Proof. reflexivity. Qed.

Example index_of_segment_from :
  let clm := [Samples.clp; Samples.svc_a; Samples.dtm_a; Samples.svc_b] in
  index_of_segment clm "SVC" 0 = 1%Z
  /\ index_of_segment clm "SVC" 2 = 3%Z
  /\ index_of_segment clm "SVC" 4 = 4%Z
  /\ index_of_segment clm "LQ" 0 = 4%Z.
Proof. repeat split. Qed.

Example first_or_sentinel :
  let clm := [Samples.clp; Samples.svc_a; Samples.dtm_a; Samples.svc_b] in
  _first clm "SVC" 2 = Samples.svc_b
  /\ _first clm "N1" 0 = empty
  /\ segment_len Samples.plb_two = 7%Z.
Proof. repeat split. Qed.

(** The stop index of the two slices when no SVC is found does not depend on
    how "not found" is answered: with the length, or with a negative value
    such as the filter on [x >= 0] provides for, the stop is the last index
    [n - 1] and the slice leaves the last segment out. *)
Lemma stop_without_match (n io : Z) :
  (1 <= n)%Z -> (io = n \/ io < 0)%Z ->
  py_min (filter (fun x => (x >=? 0)%Z) [io; (n - 1)%Z]) = Some (n - 1)%Z.
Proof.
  intros Hn Hio. simpl.
  destruct (Z.geb_spec io 0) as [A|A];
    destruct (Z.geb_spec (n - 1) 0) as [B|B]; simpl; try lia;
    f_equal; lia.
Qed.

Lemma line_stop_without_match {A} (l : list A) (idx io : Z) :
  l <> [] -> (io = len l \/ io = -1)%Z ->
  py_slice l (Some idx) (Some (Z.min io (len l - 1)))
  = py_slice l (Some idx) (Some (len l - 1)%Z).
Proof.
  intros NE Hio.
  assert (P : (1 <= len l)%Z).
  { destruct l; [congruence|]. unfold len. cbn [List.length]. lia. }
  unfold py_slice.
  replace (clamp (len l) (Z.min io (len l - 1)))
    with (clamp (len l) (len l - 1)); [reflexivity|].
  unfold clamp. destruct Hio as [E|E]; subst io.
  - replace (Z.min (len l) (len l - 1)) with (len l - 1)%Z by lia.
    reflexivity.
  - replace (Z.min (-1) (len l - 1)) with (-1)%Z by lia.
    destruct (Z.ltb_spec (len l - 1) 0); destruct (Z.ltb_spec (-1) 0); lia.
Qed.

(* ------------------------------------------------------------------ *)
(** ** Transaction: construction and pickling                          *)
(* ------------------------------------------------------------------ *)

(** Pickling round trip: restoring the state a transaction gives, into any
    object whatever, yields that transaction and raises nothing. *)
Theorem setstate_getstate (self t : Transaction.t) :
  TransactionState.__setstate__ self (TransactionState.__getstate__ t)
  = (t, None).
Proof.
  destruct t as [d f ty c n r].
  destruct ty, c, n, r; reflexivity.
Qed.

(** A state written before the three header fields existed (no such keys)
    restores with the three fields None: [__setstate__] reads them with
    [state.get] and does not parse the data again, so a restored transaction
    whose data holds an ST segment differs from the one [__init__] builds
    from the same arguments. *)
Theorem setstate_without_header_keys
  (self : Transaction.t) (st : TransactionState.state)
  (segments : list Segment) (delim_cls : Delim) (ty : option string)
  (Hd : TransactionState.lookup "data" st
        = Some (TransactionState.AData segments))
  (Hf : TransactionState.lookup "format_cls" st
        = Some (TransactionState.AFormat delim_cls))
  (Ht : TransactionState.lookup "transaction_type" st
        = Some (TransactionState.of_opt ty))
  (Hc : TransactionState.lookup "transaction_set_identifier_code" st = None)
  (Hn : TransactionState.lookup "transaction_set_control_number" st = None)
  (Hr : TransactionState.lookup "implementation_convention_reference" st
        = None) :
  TransactionState.__setstate__ self st
  = (Transaction.mk segments delim_cls ty None None None, None)
  /\ ((exists s, In s segments /\ segment_name s = "ST") ->
      fst (TransactionState.__setstate__ self st)
      <> Transaction.__init__ segments delim_cls ty).
Proof.
  assert (E : TransactionState.__setstate__ self st
              = (Transaction.mk segments delim_cls ty None None None, None)).
  { unfold TransactionState.__setstate__. cbn [TransactionState.run].
    unfold TransactionState.set_data at 1. rewrite Hd.
    unfold TransactionState.set_format_cls at 1. rewrite Hf.
    unfold TransactionState.set_transaction_type at 1. rewrite Ht.
    replace (TransactionState.as_opt (TransactionState.of_opt ty))
      with (Some ty) by (destruct ty; reflexivity).
    unfold TransactionState.set_identifier_code,
      TransactionState.set_control_number,
      TransactionState.set_convention_reference, TransactionState.get.
    rewrite Hc, Hn, Hr. reflexivity. }
  split; [exact E|].
  intros (s & Hin & Hs). rewrite E. cbn [fst].
  unfold Transaction.__init__, Transaction._parse_st_segment.
  rewrite parse_st_loop_find. cbn [Transaction.data].
  destruct (find is_st segments) as [x|] eqn:F.
  - discriminate.
  - exfalso. pose proof (find_none _ _ F s Hin) as N.
    unfold is_st in N. rewrite Hs in N. discriminate.
Qed.

Lemma setstate_without_header_keys_witness :
  let st := [("data", TransactionState.AData [Samples.st_835; Samples.se]);
             ("format_cls", TransactionState.AFormat AnsiX12Delim);
             ("transaction_type", TransactionState.AStr "835")] in
  let blank := Transaction.mk [] AnsiX12Delim None None None None in
  TransactionState.__setstate__ blank st
  = (Transaction.mk [Samples.st_835; Samples.se] AnsiX12Delim (Some "835")
       None None None, None)
  /\ fst (TransactionState.__setstate__ blank st)
     <> Transaction.__init__ [Samples.st_835; Samples.se] AnsiX12Delim
          (Some "835").
Proof.
  intros st blank.
  destruct (@setstate_without_header_keys blank st
              [Samples.st_835; Samples.se] AnsiX12Delim (Some "835")
              eq_refl eq_refl eq_refl eq_refl eq_refl eq_refl) as [A B].
  split; [exact A|]. apply B.
  exists Samples.st_835. split; [simpl; auto|reflexivity].
Defined.

(** A state without one of the keys read by subscript makes [__setstate__]
    raise KeyError for the first such key; the assignments made before it
    stay: with [data] present and [format_cls] missing the object ends with
    the new data and its old other attributes. *)
Theorem setstate_missing_key (self : Transaction.t)
  (st : TransactionState.state) :
  (TransactionState.lookup "data" st = None ->
   TransactionState.__setstate__ self st
   = (self, Some (TransactionState.KeyError "data")))
  /\ (forall segments,
         TransactionState.lookup "data" st
         = Some (TransactionState.AData segments) ->
         TransactionState.lookup "format_cls" st = None ->
         TransactionState.__setstate__ self st
         = (Transaction.mk segments (Transaction.format_cls self)
              (Transaction.transaction_type self)
              (Transaction.transaction_set_identifier_code self)
              (Transaction.transaction_set_control_number self)
              (Transaction.implementation_convention_reference self),
            Some (TransactionState.KeyError "format_cls")))
  /\ (forall segments delim_cls,
         TransactionState.lookup "data" st
         = Some (TransactionState.AData segments) ->
         TransactionState.lookup "format_cls" st
         = Some (TransactionState.AFormat delim_cls) ->
         TransactionState.lookup "transaction_type" st = None ->
         TransactionState.__setstate__ self st
         = (Transaction.mk segments delim_cls
              (Transaction.transaction_type self)
              (Transaction.transaction_set_identifier_code self)
              (Transaction.transaction_set_control_number self)
              (Transaction.implementation_convention_reference self),
            Some (TransactionState.KeyError "transaction_type"))).
Proof.
  unfold TransactionState.__setstate__. cbn [TransactionState.run].
  split; [|split].
  - intro H. unfold TransactionState.set_data at 1. rewrite H. reflexivity.
  - intros segments Hd Hf.
    unfold TransactionState.set_data at 1. rewrite Hd.
    unfold TransactionState.set_format_cls at 1. rewrite Hf. reflexivity.
  - intros segments delim_cls Hd Hf Ht.
    unfold TransactionState.set_data at 1. rewrite Hd.
    unfold TransactionState.set_format_cls at 1. rewrite Hf.
    unfold TransactionState.set_transaction_type at 1. rewrite Ht.
    reflexivity.
Qed.

Lemma setstate_missing_key_witness :
  let old := Transaction.__init__ [Samples.st_835] AnsiX12Delim (Some "835") in
  TransactionState.__setstate__ old []
  = (old, Some (TransactionState.KeyError "data"))
  /\ TransactionState.__setstate__ old
       [("data", TransactionState.AData [Samples.bpr])]
     = (Transaction.mk [Samples.bpr] AnsiX12Delim (Some "835")
          (Some "835") (Some "0001") (Some "005010X221A1"),
        Some (TransactionState.KeyError "format_cls")).
Proof.
  intro old. split.
  - apply (proj1 (setstate_missing_key old [])). reflexivity.
  - apply (proj1 (proj2 (setstate_missing_key old
                           [("data", TransactionState.AData [Samples.bpr])]))
             [Samples.bpr]); reflexivity.
Defined.

(** [_parse_st_segment] on any transaction object: the data, the delimiter
    class and the transaction type are never touched; without an ST segment
    in the data the header fields the object already has are kept; and
    parsing a second time changes nothing. *)
Theorem parse_st_segment_frame_and_idempotent (self : Transaction.t) :
  let parsed := Transaction._parse_st_segment self in
  Transaction.data parsed = Transaction.data self
  /\ Transaction.format_cls parsed = Transaction.format_cls self
  /\ Transaction.transaction_type parsed = Transaction.transaction_type self
  /\ (lacks (Transaction.data self) "ST" -> parsed = self)
  /\ Transaction._parse_st_segment parsed = parsed.
Proof.
  unfold Transaction._parse_st_segment. rewrite parse_st_loop_find.
  destruct (find is_st (Transaction.data self)) as [st|] eqn:F.
  - cbn zeta. cbn [Transaction.data Transaction.format_cls
                     Transaction.transaction_type].
    repeat split.
    + intro L. exfalso. apply find_some in F. destruct F as [I N].
      unfold is_st in N. apply String.eqb_eq in N. exact (L st I N).
    + rewrite parse_st_loop_find.
      cbn [Transaction.data Transaction.format_cls
             Transaction.transaction_type].
      rewrite F. reflexivity.
  - cbn zeta. repeat split. rewrite parse_st_loop_find, F. reflexivity.
Qed.

Lemma parse_st_segment_frame_and_idempotent_witness :
  let restored := Transaction.mk [Samples.bpr; Samples.se] AnsiX12Delim None
                    (Some "835") (Some "0001") None in
  Transaction._parse_st_segment restored = restored.
Proof.
  intro restored.
  apply (proj1 (proj2 (proj2 (proj2
           (parse_st_segment_frame_and_idempotent restored))))).
  intros s [E|[E|[]]]; subst s; discriminate.
Defined.

(* ------------------------------------------------------------------ *)
(** ** The navigator on a loop with a known first match                *)
(* ------------------------------------------------------------------ *)

Lemma find_named_first (pre post : list Segment) (s : Segment)
  (name : string) (start n : Z) :
  lacks pre name -> segment_name s = name -> (start <= n + len pre)%Z ->
  find (fun p => named name (snd p) && (start <=? fst p)%Z)
       (enumerate_from n (pre ++ s :: post))
  = Some ((n + len pre)%Z, s).
Proof.
  intros L N. revert n. unfold len.
  induction pre as [|x pre IH]; intros n B.
  - cbn [app enumerate_from find snd fst]. unfold named. rewrite N.
    rewrite String.eqb_refl. cbn [List.length] in *.
    destruct (Z.leb_spec start n) as [_|C]; [|lia].
    cbn [andb]. f_equal. f_equal. lia.
  - cbn [app enumerate_from find snd fst]. unfold named at 1.
    destruct (String.eqb_spec (segment_name x) name) as [E|_].
    + exfalso. apply (L x); simpl; auto.
    + cbn [andb]. rewrite IH.
      * f_equal. f_equal. cbn [List.length]. lia.
      * intros y Hy. apply L. simpl; auto.
      * cbn [List.length] in B. lia.
Qed.

Lemma index_of_segment_first (pre post : list Segment) (s : Segment)
  (name : string) :
  lacks pre name -> segment_name s = name ->
  index_of_segment (pre ++ s :: post) name 0 = len pre.
Proof.
  intros L N. unfold index_of_segment, enumerate.
  rewrite (@find_named_first pre post s name 0 0 L N) by (unfold len; lia).
  reflexivity.
Qed.

Lemma py_slice_prefix {A} (pre rest : list A) :
  py_slice (pre ++ rest) None (Some (len pre)) = pre.
Proof.
  unfold py_slice, clamp, len. rewrite length_app.
  destruct (Z.ltb_spec (Z.of_nat (List.length pre)) 0) as [C|_]; [lia|].
  rewrite Z.min_l by lia. rewrite Z.sub_0_r, Nat2Z.id.
  cbn [Z.to_nat skipn].
  rewrite firstn_app, Nat.sub_diag, firstn_all. cbn [firstn].
  apply app_nil_r.
Qed.

Lemma py_slice_whole {A} (l : list A) :
  py_slice l None (Some (len l)) = l.
Proof.
  rewrite <- (app_nil_r l) at 1. rewrite py_slice_prefix. reflexivity.
Qed.

(* ------------------------------------------------------------------ *)
(** ** The claim record, field by field                                *)
(* ------------------------------------------------------------------ *)

Lemma populate_names_map (loop : list Segment) :
  Remittance._populate_names loop
  = map name_record (segments_by_name "NM1" loop).
Proof. reflexivity. Qed.

Lemma populate_claim_loop_fields (self : Remittance.loops) (d : dict) :
  Remittance.populate_claim_loop self = Some d ->
  let clm := Remittance.clm_loop self in
  dict_keys d = claim_keys
  /\ binds d (pre_svc_groups
                (py_slice clm None (Some (index_of_segment clm "SVC" 0))))
  /\ dict_get "claim_dates" d
     = Some (PList (map date_record (segments_by_name "DTM" clm)))
  /\ dict_get "claim_names" d
     = Some (PList (Remittance._populate_names
                      (py_slice clm None (Some (next_clp_offset clm)))))
  /\ dict_get "first_nm1_patient" d
     = Some (name_record (_first clm "NM1" 0)).
Proof.
  intros H clm. revert H.
  unfold Remittance.populate_claim_loop, next_clp_offset.
  rewrite py_min_candidates
    by apply (index_of_segment_bounds (Remittance.clm_loop self) "SVC" 0).
  fold clm.
  destruct (map fst _) as [|e rest]; simpl app;
    unfold py_getitem; simpl nth_error; unfold bind;
    intro H; injection H as H; subst d;
    (split; [reflexivity|]); (split; [repeat constructor|]);
    (split; [reflexivity|]); (split; reflexivity).
Qed.

(** The claim-level contacts, related identifications, supplemental amounts
    and supplemental quantities are read from the segments before the first
    SVC only: with the loop split at its first SVC, each list has one record
    per PER, REF, AMT or QTY segment of the part before it, in order, and
    nothing from the SVC on matters.  Without any SVC the whole loop is
    read, its last segment included. *)
Theorem claim_groups_stop_at_first_svc (self : Remittance.loops) (d : dict)
  (H : Remittance.populate_claim_loop self = Some d) :
  (forall pre svc post,
      Remittance.clm_loop self = pre ++ svc :: post ->
      lacks pre "SVC" -> segment_name svc = "SVC" ->
      binds d (pre_svc_groups pre))
  /\ (lacks (Remittance.clm_loop self) "SVC" ->
      binds d (pre_svc_groups (Remittance.clm_loop self))).
Proof.
  destruct (populate_claim_loop_fields self H) as (_ & G & _).
  split.
  - intros pre svc post E L N. rewrite E in G.
    rewrite (@index_of_segment_first pre post svc "SVC" L N), py_slice_prefix in G.
    exact G.
  - intro L. rewrite (@index_of_segment_lacking _ "SVC" 0 L), py_slice_whole in G.
    exact G.
Qed.

Lemma claim_groups_stop_at_first_svc_witness :
  let clm := [Samples.clp; Samples.per_a; Samples.amt_a; Samples.svc_a;
              Samples.amt_a; Samples.per_a] in
  exists d,
    Remittance.populate_claim_loop (Samples.only_clm clm) = Some d
    /\ dict_get "claim_contacts" d
       = Some (PList [contact_record Samples.per_a])
    /\ dict_get "claim_supplemental_amount" d
       = Some (PList [amount_record Samples.amt_a]).
Proof.
  intro clm.
  destruct (populate_claim_loop_returns (Samples.only_clm clm)) as [d Hd].
  exists d. split; [exact Hd|].
  pose proof (proj1 (claim_groups_stop_at_first_svc (Samples.only_clm clm) Hd)
                [Samples.clp; Samples.per_a; Samples.amt_a] Samples.svc_a
                [Samples.amt_a; Samples.per_a] eq_refl) as B.
  assert (L : lacks [Samples.clp; Samples.per_a; Samples.amt_a] "SVC").
  { intros s [E|[E|[E|[]]]]; subst s; discriminate. }
  specialize (B L eq_refl).
  split.
  - exact (proj1 (Forall_forall _ _) B
             ("claim_contacts", PList [contact_record Samples.per_a])
             (or_introl eq_refl)).
  - exact (proj1 (Forall_forall _ _) B
             ("claim_supplemental_amount",
              PList [amount_record Samples.amt_a])
             (or_intror (or_intror (or_introl eq_refl)))).
Defined.

Lemma clp_offsets_lacking (l : list Segment) (n : Z) :
  lacks l "CLP" ->
  filter (fun iz : Z * string => snd iz =? "CLP")
    (enumerate_from n (map (fun y => segment_name y) l)) = [].
Proof.
  revert n. induction l as [|x l IH]; intros n L; [reflexivity|].
  cbn [map enumerate_from filter snd].
  destruct (String.eqb_spec (segment_name x) "CLP") as [E|_].
  - exfalso. apply (L x); simpl; auto.
  - apply IH. intros y Hy. apply L. simpl; auto.
Qed.

Lemma clp_offsets_first (pre post : list Segment) (s : Segment) (n : Z) :
  lacks pre "CLP" -> segment_name s = "CLP" ->
  exists rest,
    filter (fun iz : Z * string => snd iz =? "CLP")
      (enumerate_from n (map (fun y => segment_name y) (pre ++ s :: post)))
    = ((n + len pre)%Z, "CLP") :: rest.
Proof.
  intros L N. revert n. unfold len.
  induction pre as [|x pre IH]; intro n.
  - cbn [app map enumerate_from filter snd]. rewrite N. cbn.
    eexists. f_equal. f_equal. lia.
  - cbn [app map enumerate_from filter snd].
    destruct (String.eqb_spec (segment_name x) "CLP") as [E|_].
    + exfalso. apply (L x); simpl; auto.
    + destruct (IH (fun y Hy => L y (or_intror Hy)) (n + 1)%Z) as [rest R].
      exists rest. rewrite R. f_equal. f_equal. cbn [List.length]. lia.
Qed.

Lemma py_slice_tail {A} (c : A) (rest : list A) :
  py_slice (c :: rest) (Some 1%Z) None = rest.
Proof.
  unfold py_slice, clamp, len. cbn [List.length].
  destruct (Z.ltb_spec 1 0) as [C|_]; [lia|].
  rewrite Z.min_l by lia. cbn [Z.to_nat Pos.to_nat Pos.iter_op Nat.add skipn].
  replace (Z.to_nat (Z.of_nat (S (List.length rest)) - 1))
    with (List.length rest) by lia.
  apply firstn_all.
Qed.

Lemma py_slice_front {A} (l : list A) (k : nat) :
  (k <= List.length l)%nat ->
  py_slice l None (Some (Z.of_nat k)) = firstn k l.
Proof.
  intro B. unfold py_slice, clamp, len.
  destruct (Z.ltb_spec (Z.of_nat k) 0) as [C|_]; [lia|].
  rewrite Z.min_l by lia. rewrite Z.sub_0_r, Nat2Z.id. reflexivity.
Qed.

(** [claim_names] and a further CLP in the loop.  Without a CLP after the
    first segment, every NM1 of the loop is listed (service-line ones too).
    With one, the range stops one segment short of it: the stop index is the
    CLP's position within [clm_loop[1:]], used as a position of [clm_loop],
    so the segment just before the next CLP is not read. *)
Theorem claim_names_range (self : Remittance.loops) (d : dict)
  (H : Remittance.populate_claim_loop self = Some d) :
  (forall c rest,
      Remittance.clm_loop self = c :: rest -> lacks rest "CLP" ->
      dict_get "claim_names" d
      = Some (PList (map name_record
                       (segments_by_name "NM1" (c :: rest)))))
  /\ (forall c pre clp2 post,
         Remittance.clm_loop self = c :: pre ++ clp2 :: post ->
         lacks pre "CLP" -> segment_name clp2 = "CLP" ->
         dict_get "claim_names" d
         = Some (PList (map name_record
                          (segments_by_name "NM1"
                             (firstn (List.length pre) (c :: pre)))))).
Proof.
  destruct (populate_claim_loop_fields self H) as (_ & _ & _ & N & _).
  split.
  - intros c rest E L. rewrite N, E. unfold next_clp_offset.
    rewrite py_slice_tail. unfold enumerate.
    rewrite (@clp_offsets_lacking rest 0 L). cbn [map hd].
    rewrite py_slice_whole. apply f_equal, f_equal, populate_names_map.
  - intros c pre clp2 post E L C. rewrite N, E. unfold next_clp_offset.
    rewrite py_slice_tail. unfold enumerate.
    destruct (@clp_offsets_first pre post clp2 0 L C) as [r R]. rewrite R.
    cbn [map hd fst]. rewrite Z.add_0_l. unfold len.
    rewrite py_slice_front.
    + rewrite populate_names_map. do 3 f_equal.
      change (c :: pre ++ clp2 :: post) with ((c :: pre) ++ clp2 :: post).
      rewrite firstn_app.
      replace (List.length pre - List.length (c :: pre))%nat with 0%nat
        by (cbn [List.length]; lia).
      cbn [firstn]. rewrite app_nil_r. reflexivity.
    + cbn [List.length]. rewrite length_app. lia.
Qed.

Lemma claim_names_range_witness :
  let nm1 := Samples.seg "NM1" ["QC"; "1"; "DOE"; "JANE"] in
  let clm := [Samples.clp; Samples.svc_a; nm1; Samples.clp; nm1] in
  exists d,
    Remittance.populate_claim_loop (Samples.only_clm clm) = Some d
    /\ dict_get "claim_names" d = Some (PList [])
    /\ dict_get "first_nm1_patient" d = Some (name_record nm1).
Proof.
  intros nm1 clm.
  destruct (populate_claim_loop_returns (Samples.only_clm clm)) as [d Hd].
  exists d. split; [exact Hd|]. split.
  - refine (proj2 (claim_names_range (Samples.only_clm clm) Hd)
              Samples.clp [Samples.svc_a; nm1] Samples.clp [nm1]
              eq_refl _ eq_refl).
    intros s [E|[E|[]]]; subst s; discriminate.
  - exact (proj2 (proj2 (proj2 (proj2
             (populate_claim_loop_fields (Samples.only_clm clm) Hd))))).
Defined.

(* ------------------------------------------------------------------ *)
(** ** [_first] from a start index                                     *)
(* ------------------------------------------------------------------ *)

Lemma find_named_past_start (l : list Segment) (name : string) (s n : Z) :
  (s <= n)%Z ->
  match find (fun p => named name (snd p) && (s <=? fst p)%Z)
          (enumerate_from n l) with
  | Some p => snd p
  | None => empty
  end
  = hd empty (segments_by_name name l).
Proof.
  revert n. induction l as [|x l IH]; intros n B; [reflexivity|].
  cbn [enumerate_from find snd fst]. unfold segments_by_name in *.
  cbn [filter]. destruct (named name x); cbn [andb].
  - destruct (Z.leb_spec s n) as [_|C]; [reflexivity|lia].
  - apply IH. lia.
Qed.

Lemma find_named_skip (l : list Segment) (name : string) (s n : Z) :
  (n <= s)%Z ->
  find (fun p => named name (snd p) && (s <=? fst p)%Z) (enumerate_from n l)
  = find (fun p => named name (snd p) && (s <=? fst p)%Z)
      (enumerate_from s (skipn (Z.to_nat (s - n)) l)).
Proof.
  revert n. induction l as [|x l IH]; intros n B.
  - rewrite skipn_nil. reflexivity.
  - destruct (Z.eq_dec n s) as [E|NE].
    + subst n. rewrite Z.sub_diag. reflexivity.
    + cbn [enumerate_from find snd fst].
      destruct (Z.leb_spec s n) as [C|_]; [lia|].
      rewrite andb_false_r. rewrite (IH (n + 1)%Z) by lia.
      replace (Z.to_nat (s - n)) with (S (Z.to_nat (s - (n + 1)))) by lia.
      reflexivity.
Qed.

Lemma first_from (l : list Segment) (name : string) (s : Z) :
  (0 <= s)%Z ->
  _first l name s = hd empty (segments_by_name name (skipn (Z.to_nat s) l)).
Proof.
  intro B. unfold _first, enumerate.
  rewrite find_named_skip by exact B. rewrite Z.sub_0_r.
  apply find_named_past_start. lia.
Qed.

Lemma py_slice_between {A} (l : list A) (a b : Z) :
  (0 <= a <= b)%Z ->
  skipn (Z.to_nat a) l
  = py_slice l (Some a) (Some b) ++ skipn (Z.to_nat b) l.
Proof.
  intro B. unfold py_slice, clamp, len.
  destruct (Z.ltb_spec a 0) as [C|_]; [lia|].
  destruct (Z.ltb_spec b 0) as [C|_]; [lia|].
  destruct (Z.le_gt_cases (Z.of_nat (List.length l)) a) as [Far|Near].
  - rewrite !skipn_all2 by lia. rewrite firstn_nil. reflexivity.
  - rewrite (Z.min_l a) by lia.
    destruct (Z.le_gt_cases b (Z.of_nat (List.length l))) as [In|Out].
    + rewrite Z.min_l by lia.
      rewrite <- (firstn_skipn (Z.to_nat (b - a)) (skipn (Z.to_nat a) l)) at 1.
      f_equal. rewrite skipn_skipn. f_equal. lia.
    + rewrite Z.min_r by lia. rewrite (skipn_all2 l (n := Z.to_nat b)) by lia.
      rewrite app_nil_r. symmetry. apply firstn_all2.
      rewrite length_skipn. lia.
Qed.

Lemma segments_by_name_app (name : string) (l1 l2 : list Segment) :
  segments_by_name name (l1 ++ l2)
  = segments_by_name name l1 ++ segments_by_name name l2.
Proof. apply filter_app. Qed.

Lemma first_past_range (l : list Segment) (name : string) (a b : Z) :
  (0 <= a <= b)%Z -> lacks (py_slice l (Some a) (Some b)) name ->
  _first l name a = _first l name b.
Proof.
  intros B L. rewrite !first_from by lia.
  rewrite (py_slice_between l B), segments_by_name_app.
  rewrite (segments_by_name_lacking L). reflexivity.
Qed.

Lemma first_is_named_or_empty (l : list Segment) (name : string) (s : Z) :
  (In (_first l name s) l /\ segment_name (_first l name s) = name)
  \/ _first l name s = empty.
Proof.
  unfold _first, enumerate.
  destruct (find _ _) as [p|] eqn:F; [left|right; reflexivity].
  apply find_some in F. destruct F as [I N].
  apply in_enumerate_from in I. apply andb_true_iff in N.
  split; [tauto|]. apply String.eqb_eq. exact (proj1 N).
Qed.

(* ------------------------------------------------------------------ *)
(** ** Dates and names of a claim                                      *)
(* ------------------------------------------------------------------ *)

(** The date of a claim line is read from the first DTM at or after the
    SVC's index in the whole claim loop, whatever the line's end index: a
    line with no DTM inside its range reports the date of the line that
    starts where it ends.  When a DTM is found, the line's date record is one
    of the claim's [claim_dates], which list every DTM of the loop. *)
Theorem line_date_ignores_line_end (self : Remittance.loops) (d : dict)
  (H : Remittance.populate_claim_loop self = Some d)
  (svc : Segment) (idx svc_end_idx : Z) :
  let clm := Remittance.clm_loop self in
  let line := Remittance.populate_claim_line self svc idx svc_end_idx in
  dict_get "claim_line_dates" line = Some (date_record (_first clm "DTM" idx))
  /\ (forall svc' end',
         (0 <= idx <= svc_end_idx)%Z ->
         lacks (py_slice clm (Some idx) (Some svc_end_idx)) "DTM" ->
         dict_get "claim_line_dates" line
         = dict_get "claim_line_dates"
             (Remittance.populate_claim_line self svc' svc_end_idx end'))
  /\ dict_get "claim_dates" d
     = Some (PList (map date_record (segments_by_name "DTM" clm)))
  /\ (_first clm "DTM" idx <> empty ->
      In (date_record (_first clm "DTM" idx))
        (map date_record (segments_by_name "DTM" clm))).
Proof.
  intros clm line.
  destruct (populate_claim_loop_fields self H) as (_ & _ & D & _).
  split; [reflexivity|]. split; [|split; [exact D|]].
  - intros svc' end' B L.
    change (Some (date_record (_first clm "DTM" idx))
            = Some (date_record (_first clm "DTM" svc_end_idx))).
    rewrite (first_past_range clm B L). reflexivity.
  - intro NE. apply in_map.
    destruct (first_is_named_or_empty clm "DTM" idx) as [[I N]|E];
      [|contradiction].
    apply filter_In. split; [exact I|].
    unfold named. rewrite N. reflexivity.
Qed.

Lemma line_date_ignores_line_end_witness :
  let clm := [Samples.clp; Samples.svc_a; Samples.svc_b; Samples.dtm_a] in
  let self := Samples.only_clm clm in
  dict_get "claim_line_dates"
    (Remittance.populate_claim_line self Samples.svc_a 1 2)
  = dict_get "claim_line_dates"
      (Remittance.populate_claim_line self Samples.svc_b 2 3)
  /\ dict_get "claim_line_dates"
       (Remittance.populate_claim_line self Samples.svc_b 2 3)
     = Some (date_record Samples.dtm_a).
Proof.
  intros clm self.
  destruct (populate_claim_loop_returns self) as [d Hd].
  split.
  - refine (proj1 (proj2 (line_date_ignores_line_end self Hd Samples.svc_a
                            1 2)) Samples.svc_b 3%Z _ _).
    + lia.
    + intros s [E|[]]. subst s. discriminate.
  - exact (proj1 (line_date_ignores_line_end self Hd Samples.svc_b 2 3)).
Defined.

Lemma filter_firstn_head {A} (f : A -> bool) (l : list A) (k : nat)
  (x : A) (xs : list A) (dflt : A) :
  filter f (firstn k l) = x :: xs -> hd dflt (filter f l) = x.
Proof.
  revert k. induction l as [|y l IH]; intros k E.
  - rewrite firstn_nil in E. discriminate.
  - destruct k as [|k]; [discriminate|].
    cbn [firstn filter] in *. destruct (f y).
    + injection E as E _. exact E.
    + exact (IH _ E).
Qed.

(** Whenever [claim_names] is not empty, its first record is the
    [first_nm1_patient] record: both come from the first NM1 of the loop. *)
Theorem first_name_heads_claim_names (self : Remittance.loops) (d : dict)
  (H : Remittance.populate_claim_loop self = Some d)
  (n : pyval) (rest : list pyval)
  (Hn : dict_get "claim_names" d = Some (PList (n :: rest))) :
  dict_get "first_nm1_patient" d = Some n.
Proof.
  destruct (populate_claim_loop_fields self H) as (_ & _ & _ & N & F).
  rewrite F. rewrite N in Hn. rewrite populate_names_map in Hn.
  injection Hn as Hn.
  unfold py_slice in Hn. cbn [Z.to_nat skipn] in Hn.
  destruct (segments_by_name "NM1" _) as [|x xs] eqn:S in Hn;
    [discriminate|].
  injection Hn as Hx _. subst n. do 2 f_equal.
  rewrite first_from by lia. cbn [Z.to_nat skipn].
  unfold segments_by_name in *.
  exact (filter_firstn_head _ _ _ empty S).
Qed.

Lemma first_name_heads_claim_names_witness :
  let nm1 := Samples.seg "NM1" ["QC"; "1"; "DOE"; "JANE"] in
  let nm2 := Samples.seg "NM1" ["82"; "2"; "CLINIC"] in
  let clm := [Samples.clp; nm1; Samples.svc_a; nm2] in
  exists d,
    Remittance.populate_claim_loop (Samples.only_clm clm) = Some d
    /\ dict_get "first_nm1_patient" d = Some (name_record nm1).
Proof.
  intros nm1 nm2 clm.
  destruct (populate_claim_loop_returns (Samples.only_clm clm)) as [d Hd].
  exists d. split; [exact Hd|].
  apply (@first_name_heads_claim_names (Samples.only_clm clm) d Hd
           (name_record nm1) [name_record nm2]).
  exact (proj1 (proj2 (proj2 (proj2
           (populate_claim_loop_fields (Samples.only_clm clm) Hd))))).
Defined.

(* ------------------------------------------------------------------ *)
(** ** The shape of the claim record                                   *)
(* ------------------------------------------------------------------ *)

Lemma adjustments_of_map (range : list Segment) :
  adjustments_of range
  = map (fun cas => hd PNone (Remittance.populate_adjustment_groups cas))
      (segments_by_name "CAS" range).
Proof.
  unfold adjustments_of.
  induction (segments_by_name "CAS" range) as [|cas l IH]; [reflexivity|].
  cbn [map List.concat]. rewrite IH. reflexivity.
Qed.

Lemma adjustments_of_records (range : list Segment) :
  Forall (record_with adjustment_keys) (adjustments_of range).
Proof.
  rewrite adjustments_of_map. apply Forall_forall. intros v I.
  apply in_map_iff in I. destruct I as (cas & E & _). subst v.
  eexists. split; reflexivity.
Qed.

(** Adjustment groups keep one record per CAS segment: the adjustments of a
    claim line are the records of the CAS segments of its range, in order,
    the n-th record being the single record [populate_adjustment_groups]
    makes of the n-th CAS (its six triples stay together). *)
Theorem line_adjustments_one_per_cas
  (self : Remittance.loops) (svc : Segment) (idx svc_end_idx : Z) :
  let range :=
    py_slice (Remittance.clm_loop self) (Some idx) (Some svc_end_idx) in
  exists adjs,
    dict_get "claim_line_adjustments"
      (Remittance.populate_claim_line self svc idx svc_end_idx)
    = Some (PList adjs)
    /\ List.length adjs = List.length (segments_by_name "CAS" range)
    /\ (forall n cas,
          nth_error (segments_by_name "CAS" range) n = Some cas ->
          exists r,
            nth_error adjs n = Some r
            /\ Remittance.populate_adjustment_groups cas = [r]
            /\ record_with adjustment_keys r).
Proof.
  intro range. exists (adjustments_of range).
  split.
  - cbn [Remittance.populate_claim_line dict_get String.eqb Ascii.eqb
           Bool.eqb].
    rewrite reduce_app_concat. reflexivity.
  - rewrite adjustments_of_map. rewrite length_map.
    split; [reflexivity|].
    intros n cas Hn. eexists. split.
    + erewrite map_nth_error by exact Hn. reflexivity.
    + split; [reflexivity|]. eexists. split; reflexivity.
Qed.

Lemma line_adjustments_one_per_cas_witness :
  let clm := [Samples.clp; Samples.svc_a; Samples.cas_line; Samples.cas_one;
              Samples.svc_b] in
  exists adjs,
    dict_get "claim_line_adjustments"
      (Remittance.populate_claim_line (Samples.only_clm clm) Samples.svc_a 1 4)
    = Some (PList adjs)
    /\ List.length adjs = 2%nat.
Proof.
  intro clm.
  destruct (line_adjustments_one_per_cas (Samples.only_clm clm)
              Samples.svc_a 1 4) as (adjs & A & L & _).
  exists adjs. split; [exact A|exact L].
Defined.

(** The claim record is shaped the same for every claim loop: its twelve
    keys, every claim line a record of the seven line keys, every claim-level
    and line-level adjustment a record of the same twenty keys. *)
Theorem claim_record_shape (self : Remittance.loops) (d : dict)
  (H : Remittance.populate_claim_loop self = Some d) :
  dict_keys d = claim_keys
  /\ (exists lines,
         dict_get "claim_lines" d = Some (PList lines)
         /\ Forall (record_with claim_line_keys) lines)
  /\ (exists adjs,
         dict_get "claim_adjustments" d = Some (PList adjs)
         /\ Forall (record_with adjustment_keys) adjs)
  /\ (forall svc idx svc_end_idx,
         dict_keys (Remittance.populate_claim_line self svc idx svc_end_idx)
         = claim_line_keys)
  /\ List.length adjustment_keys = 19%nat.
Proof.
  destruct (populate_claim_loop_fields self H) as (K & _).
  destruct (populate_claim_loop_binds self H) as (L & A).
  split; [exact K|]. split; [|split; [|split; [reflexivity|reflexivity]]].
  - eexists. split; [exact L|].
    apply Forall_forall. intros v I. apply in_map_iff in I.
    destruct I as (p & E & _). subst v. eexists. split; reflexivity.
  - eexists. split; [exact A|]. apply adjustments_of_records.
Qed.

Lemma claim_record_shape_witness :
  let clm := [Samples.clp; Samples.cas_line; Samples.svc_a; Samples.cas_one;
              Samples.svc_b; Samples.dtm_a] in
  exists d lines,
    Remittance.populate_claim_loop (Samples.only_clm clm) = Some d
    /\ dict_keys d = claim_keys
    /\ dict_get "claim_lines" d = Some (PList lines)
    /\ Forall (record_with claim_line_keys) lines.
Proof.
  intro clm.
  destruct (populate_claim_loop_returns (Samples.only_clm clm)) as [d Hd].
  destruct (claim_record_shape (Samples.only_clm clm) Hd)
    as (K & (lines & L & F) & _).
  exists d, lines. repeat split; assumption.
Defined.

(* ------------------------------------------------------------------ *)
(** ** Provider adjustments                                            *)
(* ------------------------------------------------------------------ *)

(** In a provider adjustment record the groups that are read form a prefix:
    once a group is marked not present, every later group is, and a group
    read in full has every earlier group read in full.  The record has the
    twenty fixed keys whatever the segment's length. *)
Theorem plb_groups_form_a_prefix
  (self : Remittance.loops) (n : nat) (p : Segment)
  (H : nth_error (segments_by_name "PLB" (Remittance.trx_summary_loop self)) n
       = Some p) :
  exists d,
    nth_error (Remittance.populate_plb_loop self) n = Some d
    /\ dict_keys d = plb_keys
    /\ forall j k,
         In j [1; 2; 3; 4; 5; 6]%nat -> In k [1; 2; 3; 4; 5; 6]%nat ->
         (j <= k)%nat ->
         (plb_group d j = not_present -> plb_group d k = not_present)
         /\ (plb_group d k = plb_read p k -> plb_group d j = plb_read p j).
Proof.
  pose proof H as H'.
  apply populate_plb_loop_nth in H. destruct H as (d & Hd & _ & _ & G).
  exists d. split; [exact Hd|]. split.
  - unfold Remittance.populate_plb_loop, reduce1 in Hd.
    simpl fold_left in Hd. rewrite app_nil_r in Hd.
    rewrite nth_error_map, H' in Hd. cbn [option_map] in Hd.
    injection Hd as Hd. subst d. reflexivity.
  - intros j k Ij Ik Le.
    rewrite (proj1 (Forall_forall _ _) G j Ij).
    rewrite (proj1 (Forall_forall _ _) G k Ik).
    unfold not_present, plb_read, plb_threshold.
    destruct (Z.gtb_spec (segment_len p) (Z.of_nat (2 * j + 1)));
      destruct (Z.gtb_spec (segment_len p) (Z.of_nat (2 * j + 1) + 1));
      destruct (Z.gtb_spec (segment_len p) (Z.of_nat (2 * k + 1)));
      destruct (Z.gtb_spec (segment_len p) (Z.of_nat (2 * k + 1) + 1));
      split; intro E; try reflexivity; try discriminate; exfalso; lia.
Qed.

Lemma plb_groups_form_a_prefix_witness :
  exists d,
    nth_error
      (Remittance.populate_plb_loop
         (Remittance.mkLoops [] [] [] [] [Samples.plb_two] []))
      0
    = Some d
    /\ dict_keys d = plb_keys
    /\ plb_group d 1 = plb_read Samples.plb_two 1.
Proof.
  destruct (@plb_groups_form_a_prefix
              (Remittance.mkLoops [] [] [] [] [Samples.plb_two] [])
              0 Samples.plb_two eq_refl) as (d & Hd & K & P).
  exists d. split; [exact Hd|]. split; [exact K|].
  refine (proj2 (P 1%nat 2%nat _ _ _) _).
  - simpl; auto.
  - simpl; auto.
  - lia.
  - injection Hd as Hd. subst d. reflexivity.
Defined.

(* ------------------------------------------------------------------ *)
(** ** Header and payment records                                      *)
(* ------------------------------------------------------------------ *)

Lemma positional_of_empty (n : nat) :
  positional empty n = repeat (PStr "") n.
Proof.
  unfold positional. generalize 1%nat.
  induction n as [|n IH]; intro a; [reflexivity|].
  cbn [seq map repeat]. rewrite element_empty, IH. reflexivity.
Qed.

(** The header and payment records read consecutive positions of the first
    segment of each kind, with no position skipped or repeated: TS3 1 to 24,
    TS2 1 to 19, DTM 1 to 3, BPR 1 to 17, TRN 1 to 4, and LX 1.  A kind that
    is missing from its loop gives a sub-record of that many empty
    strings. *)
Theorem header_and_payment_are_positional (self : Remittance.loops) :
  let h := Remittance.populate_header_loop self in
  let t := Remittance.populate_trx_loop self in
  let hl := Remittance.header_number_loop self in
  let tl := Remittance.trx_header_loop self in
  (dict_keys h = ["assigned_num"; "ts3"; "ts2"]
   /\ dict_keys t = ["dtm"; "bpr"; "trn"])
  /\ (dict_get "assigned_num" h = Some (PStr (element (_first hl "LX" 0) 1))
      /\ values_of (dict_get "ts3" h) = positional (_first hl "TS3" 0) 24
      /\ values_of (dict_get "ts2" h) = positional (_first hl "TS2" 0) 19
      /\ values_of (dict_get "dtm" t) = positional (_first tl "DTM" 0) 3
      /\ values_of (dict_get "bpr" t) = positional (_first tl "BPR" 0) 17
      /\ values_of (dict_get "trn" t) = positional (_first tl "TRN" 0) 4)
  /\ (forall name n,
         lacks hl name ->
         positional (_first hl name 0) n = repeat (PStr "") n)
  /\ (forall name n,
         lacks tl name ->
         positional (_first tl name 0) n = repeat (PStr "") n).
Proof.
  intros h t hl tl.
  split; [split; reflexivity|].
  split; [repeat split|].
  split; intros name n L; rewrite (first_lacking 0 L);
    apply positional_of_empty.
Qed.

Lemma header_and_payment_are_positional_witness :
  let self := Remittance.mkLoops [Samples.bpr] [] [] [] [] [] in
  values_of (dict_get "trn" (Remittance.populate_trx_loop self))
  = repeat (PStr "") 4
  /\ values_of (dict_get "bpr" (Remittance.populate_trx_loop self))
     = positional Samples.bpr 17.
Proof.
  intro self.
  pose proof (header_and_payment_are_positional self)
    as (_ & (_ & _ & _ & _ & B & T) & _ & D).
  split.
  - rewrite T. apply D. intros s [E|[]]. subst s. discriminate.
  - exact B.
Defined.

(* ------------------------------------------------------------------ *)
(** ** A claim loop without any segment the projection looks for       *)
(* ------------------------------------------------------------------ *)

Lemma in_py_slice {A} (l : list A) (a b : option Z) (x : A) :
  In x (py_slice l a b) -> In x l.
Proof.
  unfold py_slice.
  set (n := Z.to_nat _). set (k := Z.to_nat _). intro I.
  rewrite <- (firstn_skipn k l). apply in_or_app. right.
  rewrite <- (firstn_skipn n (skipn k l)). apply in_or_app. left. exact I.
Qed.

Lemma lacks_py_slice (l : list Segment) (a b : option Z) (name : string) :
  lacks l name -> lacks (py_slice l a b) name.
Proof. intros L s I. apply L. exact (in_py_slice _ _ _ _ I). Qed.

Lemma pre_svc_groups_lacking (range : list Segment) :
  (forall name, In name claim_segment_names -> lacks range name) ->
  pre_svc_groups range
  = [("claim_contacts", PList []);
     ("claim_related_identifications", PList []);
     ("claim_supplemental_amount", PList []);
     ("claim_supplemental_quantity", PList [])].
Proof.
  intro L. unfold pre_svc_groups.
  rewrite !segments_by_name_lacking
    by (apply L; unfold claim_segment_names; simpl; tauto).
  reflexivity.
Qed.

Lemma segments_by_name_index_lacking (loop : list Segment) (name : string) :
  lacks loop name -> segments_by_name_index name loop = [].
Proof.
  intro L. unfold segments_by_name_index, enumerate. generalize 0%Z.
  induction loop as [|x loop IH]; intro n; [reflexivity|].
  cbn [enumerate_from filter snd]. unfold named at 1.
  destruct (String.eqb_spec (segment_name x) name) as [E|_].
  - exfalso. apply (L x); simpl; auto.
  - apply IH. intros s Hs. apply L. simpl; auto.
Qed.

Lemma filter_name_lacking (loop : list Segment) (name : string) :
  lacks loop name -> filter (fun x => segment_name x =? name) loop = [].
Proof. exact (@segments_by_name_lacking loop name). Qed.

Ltac defaulted_entry :=
  first
    [ left; reflexivity
    | right; eexists; split; [reflexivity|]; repeat constructor ].

(** A claim loop that holds none of the segments the projection looks for
    (the empty loop among them) still gives the full claim record: every
    sub-record has all its fields empty and every repeatable group, the
    claim lines included, is an empty sequence. *)
Theorem claim_record_of_unknown_segments (self : Remittance.loops) (d : dict)
  (H : Remittance.populate_claim_loop self = Some d)
  (L : forall name, In name claim_segment_names ->
                    lacks (Remittance.clm_loop self) name) :
  dict_keys d = claim_keys
  /\ Forall (fun kv => defaulted_value (snd kv)) d.
Proof.
  destruct (populate_claim_loop_fields self H) as (K & _).
  split; [exact K|]. clear K. revert H.
  assert (M : forall name, In name claim_segment_names ->
                forall a b,
                  lacks (py_slice (Remittance.clm_loop self) a b) name).
  { intros name I a b. apply lacks_py_slice. exact (L name I). }
  unfold claim_segment_names in L, M. cbn [In] in L, M.
  unfold Remittance.populate_claim_loop, Remittance._populate_names.
  rewrite py_min_candidates
    by apply (index_of_segment_bounds (Remittance.clm_loop self) "SVC" 0).
  rewrite !(@first_lacking _ "CLP" 0) by (apply L; tauto).
  rewrite !(@first_lacking _ "NM1" 0) by (apply L; tauto).
  rewrite !(@first_lacking _ "MIA" 0) by (apply L; tauto).
  rewrite !(@first_lacking _ "MOA" 0) by (apply L; tauto).
  rewrite (@segments_by_name_index_lacking _ "SVC") by (apply L; tauto).
  rewrite (@filter_name_lacking (Remittance.clm_loop self) "DTM")
    by (apply L; tauto).
  rewrite !(@segments_by_name_lacking _ "PER") by (apply M; tauto).
  rewrite !(@segments_by_name_lacking _ "REF") by (apply M; tauto).
  rewrite !(@segments_by_name_lacking _ "AMT") by (apply M; tauto).
  rewrite !(@segments_by_name_lacking _ "QTY") by (apply M; tauto).
  destruct (map fst _) as [|e rest]; simpl app;
    unfold py_getitem; simpl nth_error; unfold bind;
    rewrite (@filter_name_lacking _ "NM1") by (apply M; tauto);
    rewrite (@segments_by_name_lacking _ "CAS") by (apply M; tauto);
    intro H; injection H as H; subst d;
    repeat (apply Forall_cons; [defaulted_entry|]); apply Forall_nil.
Qed.

Lemma claim_record_of_unknown_segments_witness :
  let clm := [Samples.bpr; Samples.se] in
  exists d,
    Remittance.populate_claim_loop (Samples.only_clm clm) = Some d
    /\ dict_keys d = claim_keys
    /\ Forall (fun kv => defaulted_value (snd kv)) d.
Proof.
  intro clm.
  destruct (populate_claim_loop_returns (Samples.only_clm clm)) as [d Hd].
  exists d. split; [exact Hd|].
  apply (claim_record_of_unknown_segments (Samples.only_clm clm) Hd).
  intros name I s [E|[E|[]]] N; subst s; cbn in N; subst name;
    unfold claim_segment_names in I; cbn [In] in I;
    repeat (destruct I as [I|I]; [discriminate|]); contradiction.
Defined.

(* ------------------------------------------------------------------ *)
(** ** From the six loops to [to_json]                                 *)
(* ------------------------------------------------------------------ *)

(** Construction followed by [to_json]: the six values are the records the
    six [populate_*] functions make of the loops given to the constructor,
    and [provider_adjustments] holds one record of the twenty keys per PLB
    segment of the summary loop, in order (none when it has no PLB). *)
Theorem to_json_of_constructed
  (trx_header_loop payer_loop payee_loop clm_loop trx_summary_loop
     header_number_loop : list Segment) :
  let self := Remittance.mkLoops trx_header_loop payer_loop payee_loop
                clm_loop trx_summary_loop header_number_loop in
  exists r claim,
    Remittance.__init__ trx_header_loop payer_loop payee_loop clm_loop
      trx_summary_loop header_number_loop = Some r
    /\ Remittance.populate_claim_loop self = Some claim
    /\ Remittance.to_json r
       = [("payment", PDict (Remittance.populate_trx_loop self));
          ("payer", PDict (Remittance.populate_payer_loop self));
          ("payee", PDict (Remittance.populate_payee_loop self));
          ("claim", PDict claim);
          ("provider_adjustments",
           PList (map PDict (Remittance.populate_plb_loop self)));
          ("header_info", PDict (Remittance.populate_header_loop self))]
    /\ List.length (Remittance.populate_plb_loop self)
       = List.length (segments_by_name "PLB" trx_summary_loop)
    /\ Forall (record_with plb_keys)
         (map PDict (Remittance.populate_plb_loop self))
    /\ (lacks trx_summary_loop "PLB" ->
        dict_get "provider_adjustments" (Remittance.to_json r)
        = Some (PList [])).
Proof.
  intro self.
  destruct (populate_claim_loop_returns self) as [claim Hc].
  unfold Remittance.__init__, Remittance.build. fold self. rewrite Hc.
  unfold bind. eexists. exists claim.
  split; [reflexivity|]. split; [reflexivity|]. split; [reflexivity|].
  split; [apply populate_plb_loop_length|].
  split.
  - unfold Remittance.populate_plb_loop, reduce1. simpl fold_left.
    rewrite app_nil_r. apply Forall_forall. intros v I.
    apply in_map_iff in I. destruct I as (d & Ev & I). subst v.
    apply in_map_iff in I. destruct I as (p & Ed & _). subst d.
    eexists. split; reflexivity.
  - intro L.
    change (Some (PList (map PDict (Remittance.populate_plb_loop self)))
            = Some (PList [])).
    unfold Remittance.populate_plb_loop, reduce1.
    cbn [Remittance.trx_summary_loop self].
    rewrite (segments_by_name_lacking L). reflexivity.
Qed.

Lemma to_json_of_constructed_witness :
  exists r,
    Remittance.__init__ [] [] [] [] [Samples.bpr] [] = Some r
    /\ dict_get "provider_adjustments" (Remittance.to_json r)
       = Some (PList []).
Proof.
  destruct (to_json_of_constructed [] [] [] [] [Samples.bpr] [])
    as (r & claim & Hr & _ & _ & _ & _ & P).
  exists r. split; [exact Hr|]. apply P.
  intros s [E|[]]. subst s. discriminate.
Defined.

(* ------------------------------------------------------------------ *)
(** ** Sanitized text                                                  *)
(* ------------------------------------------------------------------ *)

Lemma list_ascii_of_append (a b : string) :
  list_ascii_of_string (a ++ b)%string
  = list_ascii_of_string a ++ list_ascii_of_string b.
Proof.
  induction a as [|c a IH]; [reflexivity|].
  cbn [String.append list_ascii_of_string app]. rewrite IH. reflexivity.
Qed.

Lemma str_len_append (a b : string) :
  SecureLogger.str_len (a ++ b)%string
  = (SecureLogger.str_len a + SecureLogger.str_len b)%Z.
Proof.
  unfold SecureLogger.str_len, len.
  rewrite list_ascii_of_append, length_app. lia.
Qed.

Lemma str_len_nonneg (s : string) : (0 <= SecureLogger.str_len s)%Z.
Proof. unfold SecureLogger.str_len, len. lia. Qed.

Lemma str_len_slice (s : string) (m : Z) :
  (0 <= m)%Z ->
  SecureLogger.str_len (SecureLogger.str_slice_to s m)
  = Z.min m (SecureLogger.str_len s).
Proof.
  intro B. unfold SecureLogger.str_len, SecureLogger.str_slice_to.
  rewrite list_ascii_of_string_of_list_ascii.
  unfold py_slice, clamp, len.
  destruct (Z.ltb_spec m 0) as [C|_]; [lia|].
  cbn [Z.to_nat skipn]. rewrite length_firstn. lia.
Qed.

Lemma str_slice_keeps_short (s : string) (m : Z) :
  (SecureLogger.str_len s <= m)%Z -> SecureLogger.str_slice_to s m = s.
Proof.
  intro B. pose proof (str_len_nonneg s) as P.
  unfold SecureLogger.str_len, SecureLogger.str_slice_to in *.
  unfold py_slice, clamp. unfold len in *.
  destruct (Z.ltb_spec m 0) as [C|_]; [lia|].
  cbn [Z.to_nat skipn]. rewrite firstn_all2 by lia.
  apply string_of_list_ascii_of_string.
Qed.

Lemma sanitize_bound_only
  (re_sub : string -> string -> string -> string) (Dbutils : Type)
  (self : SecureLogger.t Dbutils) (text : string) :
  (0 <= SecureLogger.max_message_length self)%Z ->
  (SecureLogger.str_len (SecureLogger.sanitize re_sub self text)
   <= SecureLogger.max_message_length self + 15)%Z
  /\ (text = "" -> SecureLogger.sanitize re_sub self text = "").
Proof.
  intro H. unfold SecureLogger.sanitize.
  destruct (String.eqb_spec text "") as [E|NE].
  - split; [cbn; lia|reflexivity].
  - split; [|intro; contradiction].
    match goal with
    | |- context [(?x >? ?y)%Z] => destruct (Z.gtb_spec x y) as [G|L]
    end; [|lia].
    rewrite str_len_append, str_len_slice by exact H.
    change (SecureLogger.str_len "... [truncated]") with 15%Z. lia.
Qed.

(** [sanitize] bounds what it returns.  With a non-negative
    [max_message_length], the result is the redacted text itself when that
    has at most [max_message_length] characters, and otherwise its first
    [max_message_length] characters followed by the 15-character marker; so
    it never has more than [max_message_length + 15] characters.  The empty
    text gives the empty text without any pattern being applied. *)
Theorem sanitize_is_bounded
  (re_sub : string -> string -> string -> string) (Dbutils : Type)
  (self : SecureLogger.t Dbutils) (text : string)
  (H : (0 <= SecureLogger.max_message_length self)%Z) :
  let limit := SecureLogger.max_message_length self in
  let r := redacted re_sub (SecureLogger._compiled_patterns self) text in
  let out := SecureLogger.sanitize re_sub self text in
  (SecureLogger.str_len out <= limit + 15)%Z
  /\ (text = "" -> out = "")
  /\ (text <> "" -> (SecureLogger.str_len r <= limit)%Z -> out = r)
  /\ (text <> "" -> (limit < SecureLogger.str_len r)%Z ->
      out = (SecureLogger.str_slice_to r limit ++ truncation_marker)%string
      /\ SecureLogger.str_len out = (limit + 15)%Z).
Proof.
  intros limit r out. unfold out, SecureLogger.sanitize.
  fold (redacted re_sub (SecureLogger._compiled_patterns self) text).
  fold r. fold limit.
  destruct (String.eqb_spec text "") as [E|NE].
  - split; [cbn; lia|]. repeat split; intros; try reflexivity; contradiction.
  - destruct (Z.gtb_spec (SecureLogger.str_len r) limit) as [G|L].
    + assert (S : SecureLogger.str_len
                    (SecureLogger.str_slice_to r limit ++ "... [truncated]")
                  = (limit + 15)%Z).
      { rewrite str_len_append, str_len_slice by exact H.
        rewrite Z.min_l by lia. reflexivity. }
      split; [lia|]. split; [intro; contradiction|].
      split; [intros; lia|]. intros _ _. split; [reflexivity|exact S].
    + split; [lia|]. split; [intro; contradiction|].
      split; [reflexivity|]. intros; lia.
Qed.

Lemma sanitize_is_bounded_witness :
  let logger := SecureLogger.__init__ (@None unit) None 20 in
  SecureLogger.sanitize Samples.no_sub logger (Samples.tens 3)
  = ("01234567890123456789... [truncated]")%string
  /\ (SecureLogger.str_len
        (SecureLogger.sanitize Samples.no_sub logger (Samples.tens 3))
      <= 35)%Z.
Proof.
  intro logger.
  assert (P : (0 <= SecureLogger.max_message_length logger)%Z)
    by (simpl; lia).
  destruct (sanitize_is_bounded Samples.no_sub logger (Samples.tens 3) P)
    as (B & _ & _ & T).
  split.
  - refine (proj1 (T _ _)); [discriminate|vm_compute; reflexivity].
  - exact B.
Defined.

(** A negative [max_message_length] does not switch truncation off: every
    non-empty text counts as too long, loses its last characters (as many as
    the limit is below zero) and gets the marker. *)
Theorem sanitize_with_negative_limit
  (re_sub : string -> string -> string -> string) (Dbutils : Type)
  (self : SecureLogger.t Dbutils) (text : string)
  (H : (SecureLogger.max_message_length self < 0)%Z)
  (NE : text <> "") :
  let limit := SecureLogger.max_message_length self in
  let r := redacted re_sub (SecureLogger._compiled_patterns self) text in
  SecureLogger.sanitize re_sub self text
  = (string_of_list_ascii
       (firstn (Z.to_nat (SecureLogger.str_len r + limit))
          (list_ascii_of_string r))
     ++ truncation_marker)%string.
Proof.
  intros limit r. unfold SecureLogger.sanitize.
  fold (redacted re_sub (SecureLogger._compiled_patterns self) text).
  fold r. fold limit.
  destruct (String.eqb_spec text "") as [E|_]; [contradiction|].
  pose proof (str_len_nonneg r) as P.
  destruct (Z.gtb_spec (SecureLogger.str_len r) limit) as [_|L];
    [|unfold limit in *; lia].
  unfold truncation_marker. f_equal.
  unfold SecureLogger.str_slice_to, py_slice, clamp, SecureLogger.str_len.
  fold limit. destruct (Z.ltb_spec limit 0) as [_|C]; [|lia].
  cbn [Z.to_nat skipn]. do 2 f_equal.
  unfold SecureLogger.str_len in P. lia.
Qed.

Lemma sanitize_with_negative_limit_witness :
  SecureLogger.sanitize Samples.no_sub
    (SecureLogger.__init__ (@None unit) None (-7)) Samples.ten
  = ("012... [truncated]")%string.
Proof.
  apply (@sanitize_with_negative_limit Samples.no_sub unit
           (SecureLogger.__init__ None None (-7)) Samples.ten).
  - simpl. lia.
  - discriminate.
Defined.

(** The error hash correlates errors by type and by the first 100
    characters of the message only: two exceptions that agree on these get
    the same hash, from any two loggers; and the hash has at most 12
    characters, exactly 12 when the digest has that many. *)
Theorem error_hash_reads_type_and_prefix
  (sha256_hexdigest : string -> string) (Dbutils : Type)
  (logger1 logger2 : SecureLogger.t Dbutils)
  (e1 e2 : SecureLogger.Exception)
  (Ht : SecureLogger.type_name e1 = SecureLogger.type_name e2)
  (Hm : SecureLogger.str_slice_to (SecureLogger.message e1) 100
        = SecureLogger.str_slice_to (SecureLogger.message e2) 100) :
  SecureLogger.get_error_hash sha256_hexdigest logger1 e1
  = SecureLogger.get_error_hash sha256_hexdigest logger2 e2
  /\ (SecureLogger.str_len
        (SecureLogger.get_error_hash sha256_hexdigest logger1 e1) <= 12)%Z
  /\ ((12 <= SecureLogger.str_len
               (sha256_hexdigest
                  (SecureLogger.type_name e1 ++ ":"
                   ++ SecureLogger.str_slice_to (SecureLogger.message e1) 100)
                  %string))%Z ->
      SecureLogger.str_len
        (SecureLogger.get_error_hash sha256_hexdigest logger1 e1) = 12%Z).
Proof.
  unfold SecureLogger.get_error_hash. rewrite Ht, Hm.
  split; [reflexivity|].
  rewrite <- Ht, <- Hm. rewrite str_len_slice by lia. split; lia.
Qed.

Lemma error_hash_reads_type_and_prefix_witness :
  let e1 := SecureLogger.mkException "ValueError"
              (Samples.tens 10 ++ " password=hunter2")%string in
  let e2 := SecureLogger.mkException "ValueError"
              (Samples.tens 10 ++ " at row 42")%string in
  let logger := SecureLogger.__init__ (@None unit) None 500 in
  SecureLogger.get_error_hash (fun s => s) logger e1
  = SecureLogger.get_error_hash (fun s => s) logger e2.
Proof.
  intros e1 e2 logger.
  refine (proj1 (@error_hash_reads_type_and_prefix (fun s => s) unit
                   logger logger e1 e2 _ _)).
  - reflexivity.
  - vm_compute. reflexivity.
Defined.

(** [safe_error_message] is the exception's type name, a colon and a space,
    and the sanitized message: with a non-negative [max_length] it has at
    most [max_length + 17] characters beyond the type name, and an exception
    with an empty message gives the type name followed by ": ". *)
Theorem safe_error_message_is_bounded
  (re_sub : string -> string -> string -> string) (Dbutils : Type)
  (exception : SecureLogger.Exception) (max_length : Z)
  (H : (0 <= max_length)%Z) :
  let out := SecureLogger.safe_error_message re_sub Dbutils exception
               max_length in
  (exists rest,
      out = (SecureLogger.type_name exception ++ ": " ++ rest)%string
      /\ (SecureLogger.str_len rest <= max_length + 15)%Z)
  /\ (SecureLogger.str_len out
      <= SecureLogger.str_len (SecureLogger.type_name exception)
         + max_length + 17)%Z
  /\ (SecureLogger.message exception = "" ->
      out = (SecureLogger.type_name exception ++ ": ")%string).
Proof.
  intro out. unfold out, SecureLogger.safe_error_message,
    SecureLogger.get_safe_exception_type.
  set (logger := SecureLogger.__init__ None None max_length).
  destruct (@sanitize_bound_only re_sub Dbutils logger
              (SecureLogger.message exception) H) as [B E].
  change (SecureLogger.max_message_length logger) with max_length in B.
  split; [|split].
  - eexists. split; [reflexivity|exact B].
  - rewrite !str_len_append. change (SecureLogger.str_len ": ") with 2%Z.
    lia.
  - intro M. rewrite (E M). reflexivity.
Qed.

Lemma safe_error_message_is_bounded_witness :
  SecureLogger.safe_error_message Samples.blanking_sub unit
    (SecureLogger.mkException "KeyError" "") 200
  = "KeyError: "%string
  /\ (SecureLogger.str_len
        (SecureLogger.safe_error_message Samples.no_sub unit
           (SecureLogger.mkException "IOError" (Samples.tens 30)) 200)
      <= 7 + 200 + 17)%Z.
Proof.
  split.
  - apply (proj2 (proj2 (@safe_error_message_is_bounded Samples.blanking_sub
                           unit (SecureLogger.mkException "KeyError" "") 200
                           ltac:(lia)))).
    reflexivity.
  - apply (proj1 (proj2 (@safe_error_message_is_bounded Samples.no_sub unit
                           (SecureLogger.mkException "IOError"
                              (Samples.tens 30)) 200 ltac:(lia)))).
Defined.
